(** * The AI-coach proxy: a shallow embedding of its two servers

    [src/server.js] is the plain chat proxy; the second source file is the
    same proxy with server-side analytics ([recordEvent]) and the
    [/api/track] endpoint.  Both are Express applications: an origin guard
    (the [cors] callback) in front of asynchronous route handlers whose
    bodies are one [try]/[catch].

    The embedding has three layers.
    - [JS]: the fragment of the ECMAScript run time the handlers rely on:
      strings of UTF-16 code units, dynamically typed values, [typeof],
      truthiness, [String(..)] and [Number(..)] with the TypeError they
      can throw, property reads, [JSON.parse], [JSON.stringify].
    - [Http]: requests, responses, the environment, and a small monad for
      code that throws and performs external calls.
    - [Server] and [Analytics]: the two source files, handler by handler.

    What is handed to an external call is recorded as the handler hands
    it over: the text of the body for [fetch], JavaScript values for
    [pool.query], the logger and [res.json]. *)

From Stdlib Require Import ZArith Floats List Bool Lia.
From Stdlib Require Import Strings.Byte.
Import ListNotations.

Set Warnings "-inexact-float,-register-all,-via-type-mismatch,-via-type-remapping".

Declare Scope js_scope.
Delimit Scope js_scope with js.
Declare Scope unit_scope.
Delimit Scope unit_scope with u.

Local Open Scope Z_scope.
Local Open Scope js_scope.

(* ================================================================== *)
(** * The JavaScript run time *)
(* ================================================================== *)

Module JS.

(** A number is an IEEE 754 binary64, as in ECMAScript. *)
Definition number : Type := float.

(** A string is a sequence of UTF-16 code units, each a 16-bit integer. *)
Definition code_unit : Type := Z.
Definition string : Type := list code_unit.

(** ["abc"] is the string of the code units of an ASCII literal, and
    ["a"%u] is one code unit. *)
Inductive literal : Set :=
| lit_nil
| lit_cons (c : Z) (r : literal).

Fixpoint literal_of_bytes (l : list byte) : literal :=
  match l with
  | [] => lit_nil
  | b :: r => lit_cons (Z.of_N (Byte.to_N b)) (literal_of_bytes r)
  end.

Fixpoint bytes_of_literal (s : literal) : option (list byte) :=
  match s with
  | lit_nil => Some []
  | lit_cons c r =>
      match Byte.of_N (Z.to_N c), bytes_of_literal r with
      | Some b, Some t => Some (b :: t)
      | _, _ => None
      end
  end.

String Notation string literal_of_bytes bytes_of_literal
  (via literal mapping [[nil] => lit_nil, [cons] => lit_cons]) : js_scope.

Definition unit_of_bytes (l : list byte) : option Z :=
  match l with
  | [b] => Some (Z.of_N (Byte.to_N b))
  | _ => None
  end.

Definition bytes_of_unit (c : Z) : option (list byte) :=
  match Byte.of_N (Z.to_N c) with
  | Some b => Some [b]
  | None => None
  end.

String Notation Z unit_of_bytes bytes_of_unit : unit_scope.

(** The values a JSON body or a handler variable can hold: data, never a
    function. An object is the list of its own properties, in the order
    JavaScript enumerates them. *)
Inductive value : Type :=
| VUndefined
| VNull
| VBool (b : bool)
| VNum (x : number)
| VStr (s : string)
| VArr (items : list value)
| VObj (props : list (string * value)).

Inductive error : Type :=
| TypeError     (* a property read on undefined or null, a call of what is
                   no function, an object that converts to no primitive *)
| SyntaxError   (* JSON.parse on text that is not JSON *)
| FetchFailed   (* fetch rejected: no response from the upstream *)
| QueryFailed.  (* pool.query rejected *)

(** ** Strings *)

Definition is_empty (s : string) : bool :=
  match s with [] => true | _ :: _ => false end.

(** [a === b] on strings: the same code units. *)
Fixpoint eqb (a b : string) : bool :=
  match a, b with
  | [], [] => true
  | x :: a', y :: b' => (x =? y) && eqb a' b'
  | _, _ => false
  end.

(** [s.slice(0, n)] for a literal [n >= 0]. *)
Definition slice (n : nat) (s : string) : string := firstn n s.

(** White space and line terminators of ECMAScript. *)
Definition is_space (c : code_unit) : bool :=
  match c with
  | 9 | 10 | 11 | 12 | 13 | 32 | 160 | 5760 | 8232 | 8233 | 8239 | 8287 | 12288 | 65279 => true
  | _ => (8192 <=? c) && (c <=? 8202)
  end.

Fixpoint trim_start (s : string) : string :=
  match s with
  | [] => []
  | c :: r => if is_space c then trim_start r else s
  end.

Fixpoint trim_end (s : string) : string :=
  match s with
  | [] => []
  | c :: r =>
      match trim_end r with
      | [] => if is_space c then [] else [c]
      | r' => c :: r'
      end
  end.

(** [s.trim()] *)
Definition trim (s : string) : string := trim_end (trim_start s).

(** [s.split(",")[0]]: the text before the first comma. *)
Fixpoint split_comma_head (s : string) : string :=
  match s with
  | [] => []
  | c :: r => if c =? ","%u then [] else c :: split_comma_head r
  end.

Definition repeat_zero (n : nat) : string := repeat "0"%u n.

Fixpoint units_of_uint (d : Decimal.uint) : string :=
  match d with
  | Decimal.Nil => []
  | Decimal.D0 r => "0"%u :: units_of_uint r
  | Decimal.D1 r => "1"%u :: units_of_uint r
  | Decimal.D2 r => "2"%u :: units_of_uint r
  | Decimal.D3 r => "3"%u :: units_of_uint r
  | Decimal.D4 r => "4"%u :: units_of_uint r
  | Decimal.D5 r => "5"%u :: units_of_uint r
  | Decimal.D6 r => "6"%u :: units_of_uint r
  | Decimal.D7 r => "7"%u :: units_of_uint r
  | Decimal.D8 r => "8"%u :: units_of_uint r
  | Decimal.D9 r => "9"%u :: units_of_uint r
  end.

(** Decimal digits of a natural number, without sign. *)
Definition digits_of_Z (z : Z) : string := units_of_uint (N.to_uint (Z.to_N z)).

(** ** Numbers *)

(** The binary64 nearest to [num / den] (ties to even), for positive
    [num] and [den]: the quotient is taken with 64 significant bits and the
    remainder tells on which side of the half-way point the exact value is. *)
Definition round_ratio (neg : bool) (num den : Z) : number :=
  if (num <=? 0) || (den <=? 0) then (if neg then PrimFloat.neg_zero else PrimFloat.zero)
  else
    let s := 64 + Z.log2 den - Z.log2 num in
    let n := if 0 <=? s then Z.shiftl num s else num in
    let d := if 0 <=? s then den else Z.shiftl den (- s) in
    let q := n / d in
    let r := n mod d in
    let loc := if r =? 0 then loc_Exact else loc_Inexact (Z.compare (2 * r) d) in
    SF2Prim (binary_round_aux prec emax neg q (- s) loc).

(** The number value of the decimal [m * 10^e], [m >= 0]. *)
Definition decimal (neg : bool) (m e : Z) : number :=
  if 0 <=? e then round_ratio neg (m * 10 ^ e) 1 else round_ratio neg m (10 ^ (- e)).

Definition number_of_Z (z : Z) : number := round_ratio (z <? 0) (Z.abs z) 1.

Definition number_of_nat (n : nat) : number := number_of_Z (Z.of_nat n).

(** [isNaN(x)] and [Number.isFinite(x)] on a number. *)
Definition isNaN (x : number) : bool := PrimFloat.is_nan x.
Definition is_finite (x : number) : bool := PrimFloat.is_finite x.

(** *** StringToNumber *)

Definition digit (radix : Z) (c : code_unit) : option Z :=
  let d := if (48 <=? c) && (c <=? 57) then c - 48
           else if (97 <=? c) && (c <=? 102) then c - 87
           else if (65 <=? c) && (c <=? 70) then c - 55
           else 99 in
  if d <? radix then Some d else None.

(** Reads the longest run of digits: the value accumulated onto [acc], the
    number of digits read, and the rest. *)
Fixpoint read_digits (radix : Z) (s : string) (acc count : Z) : Z * Z * string :=
  match s with
  | [] => (acc, count, s)
  | c :: r =>
      match digit radix c with
      | Some d => read_digits radix r (acc * radix + d) (count + 1)
      | None => (acc, count, s)
      end
  end.

Definition read_sign (s : string) : bool * string :=
  match s with
  | "-"%u :: r => (true, r)
  | "+"%u :: r => (false, r)
  | _ => (false, s)
  end.

(** An optional exponent part that must end the literal. *)
Definition read_exponent (s : string) : option Z :=
  match s with
  | [] => Some 0
  | c :: r =>
      if (c =? "e"%u) || (c =? "E"%u) then
        let '(neg, r1) := read_sign r in
        let '(v, n, r2) := read_digits 10 r1 0 0 in
        if (0 <? n) && is_empty r2 then Some (if neg then - v else v) else None
      else None
  end.

(** StrUnsignedDecimalLiteral: [Infinity], or digits with an optional
    fraction and exponent, at least one digit around the point. *)
Definition unsigned_decimal (neg : bool) (s : string) : number :=
  if eqb s "Infinity" then (if neg then neg_infinity else infinity)
  else
    let '(i, ni, r) := read_digits 10 s 0 0 in
    let '(m, nf, r') :=
      match r with
      | "."%u :: r1 => read_digits 10 r1 i 0
      | _ => (i, 0, r)
      end in
    if ni + nf =? 0 then nan
    else match read_exponent r' with
         | Some e => decimal neg m (e - nf)
         | None => nan
         end.

(** NonDecimalIntegerLiteral: the digits after [0x], [0o] or [0b]. *)
Definition radix_literal (radix : Z) (s : string) : number :=
  let '(v, n, r) := read_digits radix s 0 0 in
  if (0 <? n) && is_empty r then number_of_Z v else nan.

Definition string_to_number (s : string) : number :=
  match trim s with
  | [] => PrimFloat.zero
  | "0"%u :: "x"%u :: r | "0"%u :: "X"%u :: r => radix_literal 16 r
  | "0"%u :: "o"%u :: r | "0"%u :: "O"%u :: r => radix_literal 8 r
  | "0"%u :: "b"%u :: r | "0"%u :: "B"%u :: r => radix_literal 2 r
  | t => let '(neg, r) := read_sign t in unsigned_decimal neg r
  end.

(** *** Number::toString (radix 10) *)

(** A positive finite number as the exact fraction [num / den]. *)
Definition exact_ratio (x : number) : Z * Z :=
  match Prim2SF x with
  | S754_finite _ m e => if 0 <=? e then (Z.pos m * 2 ^ e, 1) else (Z.pos m, 2 ^ (- e))
  | _ => (0, 1)
  end.

(** [num / den >= 10^n] *)
Definition ge_pow10 (num den n : Z) : bool :=
  if 0 <=? n then den * 10 ^ n <=? num else den <=? num * 10 ^ (- n).

(** The [n] with [10^(n-1) <= num/den < 10^n], searched from [n]. *)
Fixpoint decade_up (fuel : nat) (num den n : Z) : Z :=
  match fuel with
  | O => n
  | S fuel' => if ge_pow10 num den n then decade_up fuel' num den (n + 1) else n
  end.

Fixpoint decade_down (fuel : nat) (num den n : Z) : Z :=
  match fuel with
  | O => n
  | S fuel' => if ge_pow10 num den (n - 1) then n else decade_down fuel' num den (n - 1)
  end.

Definition decade (num den : Z) : Z :=
  decade_down 400 num den (decade_up 400 num den 0).

(** The [k]-digit candidates for [x = num/den] in decade [n]: the two
    integers [s] around [x / 10^(n-k)]; one is returned when its decimal
    reads back as [x], the nearer one when both do (the even one on a tie). *)
Definition candidate (x : number) (num den n k : Z) : option (Z * Z) :=
  let e := n - k in
  let sn := if 0 <=? e then num else num * 10 ^ (- e) in
  let sd := if 0 <=? e then den * 10 ^ e else den in
  let lo := sn / sd in
  let hi := lo + 1 in
  let ok s := PrimFloat.eqb (decimal false s e) x in
  let norm s := if s =? 10 ^ k then (10 ^ (k - 1), n + 1) else (s, n) in
  match ok lo, ok hi with
  | true, true =>
      match Z.compare (2 * sn) ((2 * lo + 1) * sd) with
      | Lt => Some (norm lo)
      | Gt => Some (norm hi)
      | Eq => Some (norm (if Z.even lo then lo else hi))
      end
  | true, false => Some (norm lo)
  | false, true => Some (norm hi)
  | false, false => None
  end.

(** The shortest digits: the least [k] with a candidate, with its [s]
    and [n]. Seventeen digits always suffice for a binary64. *)
Fixpoint shortest (fuel : nat) (x : number) (num den n k : Z) : Z * Z * Z :=
  match fuel with
  | O => (k, 0, n)
  | S fuel' =>
      match candidate x num den n k with
      | Some (s, n') => (k, s, n')
      | None => shortest fuel' x num den n (k + 1)
      end
  end.

Definition exponent_suffix (n : Z) : string :=
  let e := n - 1 in
  "e" ++ (if e <? 0 then "-" else "+") ++ digits_of_Z (Z.abs e).

(** The layout of the digits [s] ([k] of them) with decimal exponent [n]. *)
Definition layout (k s n : Z) : string :=
  let ds := digits_of_Z s in
  if (k <=? n) && (n <=? 21) then ds ++ repeat_zero (Z.to_nat (n - k))
  else if (0 <? n) && (n <=? 21) then
    firstn (Z.to_nat n) ds ++ "." ++ skipn (Z.to_nat n) ds
  else if (-6 <? n) && (n <=? 0) then "0." ++ repeat_zero (Z.to_nat (- n)) ++ ds
  else if k =? 1 then ds ++ exponent_suffix n
  else firstn 1 ds ++ "." ++ skipn 1 ds ++ exponent_suffix n.

Definition positive_to_string (x : number) : string :=
  let '(num, den) := exact_ratio x in
  let '(k, s, n) := shortest 17 x num den (decade num den) 1 in
  layout k s n.

Definition number_to_string (x : number) : string :=
  if PrimFloat.is_nan x then "NaN"
  else if PrimFloat.is_zero x then "0"
  else if PrimFloat.is_infinity x then (if PrimFloat.ltb x PrimFloat.zero then "-Infinity" else "Infinity")
  else if PrimFloat.ltb x PrimFloat.zero then "-" ++ positive_to_string (PrimFloat.opp x)
  else positive_to_string x.

(** ** Dynamic typing *)

(** [typeof v] *)
Definition typeof (v : value) : string :=
  match v with
  | VUndefined => "undefined"
  | VNull => "object"
  | VBool _ => "boolean"
  | VNum _ => "number"
  | VStr _ => "string"
  | VArr _ => "object"
  | VObj _ => "object"
  end.

(** ToBoolean: what [!v], [v && ..] and [v || ..] test. *)
Definition truthy (v : value) : bool :=
  match v with
  | VUndefined | VNull => false
  | VBool b => b
  | VNum x => negb (PrimFloat.is_zero x || PrimFloat.is_nan x)
  | VStr s => negb (is_empty s)
  | VArr _ | VObj _ => true
  end.

(** [a || b] and [a ?? b] *)
Definition or_else (a b : value) : value := if truthy a then a else b.

Definition nullish (v : value) : bool :=
  match v with VUndefined | VNull => true | _ => false end.

Definition coalesce (a b : value) : value := if nullish a then b else a.

(** [v === "s"] against a string literal. *)
Definition is_string (v : value) (s : string) : bool :=
  match v with VStr t => eqb t s | _ => false end.

(** [Number.isFinite(v)]: no coercion, only a finite number passes. *)
Definition Number_isFinite (v : value) : bool :=
  match v with VNum x => is_finite x | _ => false end.

(** ** Property reads *)

(** The own property [k] of an object. *)
Fixpoint lookup (k : string) (props : list (string * value)) : option value :=
  match props with
  | [] => None
  | (k', v) :: r => if eqb k k' then Some v else lookup k r
  end.

(** [v.k] where [v] is not undefined or null and [k] is none of the names
    the built-in prototypes define (the handlers read [role], [content],
    [event], [choices], ... and [length]). *)
Definition prop (v : value) (k : string) : value :=
  match v with
  | VObj props => match lookup k props with Some x => x | None => VUndefined end
  | VArr items => if eqb k "length" then VNum (number_of_nat (length items)) else VUndefined
  | VStr s => if eqb k "length" then VNum (number_of_nat (length s)) else VUndefined
  | _ => VUndefined
  end.

(** [v[0]] where [v] is not undefined or null. *)
Definition first (v : value) : value :=
  match v with
  | VObj props => match lookup "0" props with Some x => x | None => VUndefined end
  | VArr items => match items with x :: _ => x | [] => VUndefined end
  | VStr s => match s with c :: _ => VStr [c] | [] => VUndefined end
  | _ => VUndefined
  end.

(** ** String(v) and Number(v) *)

(** [String(v)]: ToString; [None] is the TypeError of a value that
    converts to no primitive. An array joins its elements with commas
    ([Array.prototype.join]), an undefined or null element giving the empty
    string and every other element its own string. A plain object prints
    as [[object Object]] through [Object.prototype.toString], unless it has
    an own property named [toString]: that property shadows the method,
    holds no function (the value is data), [valueOf] returns the object
    itself, and no primitive is left to return. *)
Fixpoint to_string (v : value) : option string :=
  match v with
  | VUndefined => Some "undefined"
  | VNull => Some "null"
  | VBool b => Some (if b then "true" else "false")
  | VNum x => Some (number_to_string x)
  | VStr s => Some s
  | VArr items =>
      (fix join (l : list value) : option string :=
         match l with
         | [] => Some ""
         | x :: r =>
             match (if nullish x then Some "" else to_string x) with
             | Some sx =>
                 match r with
                 | [] => Some sx
                 | _ :: _ =>
                     match join r with
                     | Some sr => Some (sx ++ "," ++ sr)
                     | None => None
                     end
                 end
             | None => None
             end
         end) items
  | VObj props =>
      match lookup "toString" props with
      | Some _ => None
      | None => Some "[object Object]"
      end
  end.

(** [Number(v)]: ToNumber; [None] is the TypeError. An array or object is
    first converted to a primitive: [valueOf] gives the object itself, so
    the primitive is the string of [to_string], or there is none. *)
Definition to_number (v : value) : option number :=
  match v with
  | VUndefined => Some nan
  | VNull => Some PrimFloat.zero
  | VBool b => Some (if b then PrimFloat.one else PrimFloat.zero)
  | VNum x => Some x
  | VStr s => Some (string_to_number s)
  | VArr _ | VObj _ =>
      match to_string v with
      | Some s => Some (string_to_number s)
      | None => None
      end
  end.

(** ** JSON.parse *)

Definition dquote : code_unit := 34.
Definition backslash : code_unit := 92.

Definition is_json_space (c : code_unit) : bool :=
  match c with
  | 9 | 10 | 13 | 32 => true
  | _ => false
  end.

Fixpoint skip_ws (s : string) : string :=
  match s with
  | [] => []
  | c :: r => if is_json_space c then skip_ws r else s
  end.

(** [s] without the prefix [p], when it starts with it. *)
Fixpoint strip_prefix (p s : string) : option string :=
  match p, s with
  | [], _ => Some s
  | a :: p', b :: s' => if a =? b then strip_prefix p' s' else None
  | _ :: _, [] => None
  end.

(** The code unit of [\uXXXX]. *)
Definition unicode_escape (h1 h2 h3 h4 : code_unit) : option code_unit :=
  match digit 16 h1, digit 16 h2, digit 16 h3, digit 16 h4 with
  | Some a, Some b, Some c, Some d => Some (((a * 16 + b) * 16 + c) * 16 + d)
  | _, _, _, _ => None
  end.

Definition simple_escape (c : code_unit) : option code_unit :=
  match c with
  | 34 => Some 34
  | 92 => Some 92
  | "/"%u => Some "/"%u
  | "b"%u => Some 8
  | "f"%u => Some 12
  | "n"%u => Some 10
  | "r"%u => Some 13
  | "t"%u => Some 9
  | _ => None
  end.

(** The characters of a string literal after its opening quote, and what
    follows the closing quote. *)
Fixpoint read_string (s : string) : option (string * string) :=
  match s with
  | [] => None
  | c :: r =>
      if c =? dquote then Some ([], r)
      else if c =? backslash then
        match r with
        | "u"%u :: h1 :: h2 :: h3 :: h4 :: r' =>
            match unicode_escape h1 h2 h3 h4, read_string r' with
            | Some u, Some (t, rest) => Some (u :: t, rest)
            | _, _ => None
            end
        | e :: r' =>
            match simple_escape e, read_string r' with
            | Some u, Some (t, rest) => Some (u :: t, rest)
            | _, _ => None
            end
        | [] => None
        end
      else if c <? 32 then None
      else match read_string r with
           | Some (t, rest) => Some (c :: t, rest)
           | None => None
           end
  end.

(** A JSON number: an optional minus, an integer part without leading
    zeros, an optional fraction and an optional exponent. *)
Definition read_number (s : string) : option (number * string) :=
  let '(neg, r0) := match s with "-"%u :: r => (true, r) | _ => (false, s) end in
  let '(i, ni, r1) := read_digits 10 r0 0 0 in
  let leading_zero := match r0 with "0"%u :: _ => 1 <? ni | _ => false end in
  if (ni =? 0) || leading_zero then None
  else
    let frac :=
      match r1 with
      | "."%u :: r2 =>
          let '(m, nf, r3) := read_digits 10 r2 i 0 in
          if nf =? 0 then None else Some (m, nf, r3)
      | _ => Some (i, 0, r1)
      end in
    match frac with
    | None => None
    | Some (m, nf, r3) =>
        match r3 with
        | c :: r4 =>
            if (c =? "e"%u) || (c =? "E"%u) then
              let '(eneg, r5) := read_sign r4 in
              let '(v, n, r6) := read_digits 10 r5 0 0 in
              if n =? 0 then None
              else Some (decimal neg m ((if eneg then - v else v) - nf), r6)
            else Some (decimal neg m (- nf), r3)
        | [] => Some (decimal neg m (- nf), r3)
        end
    end.

(** An array index: the canonical decimal text of an integer below
    [2^32 - 1]. Among the own properties of an object these keys come
    first, in ascending order; the others follow in the order of their
    creation. *)
Definition array_index (k : string) : option Z :=
  let '(v, n, r) := read_digits 10 k 0 0 in
  let leading_zero := match k with "0"%u :: _ :: _ => true | _ => false end in
  if (0 <? n) && is_empty r && negb leading_zero && (v <? 4294967295) then Some v else None.

Fixpoint replace_prop (k : string) (v : value) (props : list (string * value))
  : list (string * value) :=
  match props with
  | [] => []
  | (k', v') :: r => if eqb k k' then (k, v) :: r else (k', v') :: replace_prop k v r
  end.

Fixpoint insert_index (i : Z) (k : string) (v : value) (props : list (string * value))
  : list (string * value) :=
  match props with
  | [] => [(k, v)]
  | (k', v') :: r =>
      match array_index k' with
      | Some j => if j <? i then (k', v') :: insert_index i k v r else (k, v) :: props
      | None => (k, v) :: props
      end
  end.

(** Defines the own property [k]: an earlier one keeps its place, a new
    one goes where the enumeration order puts it. *)
Definition set_prop (k : string) (v : value) (props : list (string * value))
  : list (string * value) :=
  match lookup k props with
  | Some _ => replace_prop k v props
  | None =>
      match array_index k with
      | Some i => insert_index i k v props
      | None => props ++ [(k, v)]
      end
  end.

Section Containers.
(** The parser of one value, at the nesting depth below. *)
Variable parse : string -> option (value * string).

Fixpoint parse_elements (fuel : nat) (s : string) (acc : list value)
  : option (value * string) :=
  match fuel with
  | O => None
  | S fuel' =>
      match parse s with
      | Some (v, r) =>
          match skip_ws r with
          | ","%u :: r' => parse_elements fuel' r' (v :: acc)
          | "]"%u :: r' => Some (VArr (rev (v :: acc)), r')
          | _ => None
          end
      | None => None
      end
  end.

Fixpoint parse_members (fuel : nat) (s : string) (acc : list (string * value))
  : option (value * string) :=
  match fuel with
  | O => None
  | S fuel' =>
      match skip_ws s with
      | q :: r =>
          if q =? dquote then
            match read_string r with
            | Some (k, r1) =>
                match skip_ws r1 with
                | ":"%u :: r2 =>
                    match parse r2 with
                    | Some (v, r3) =>
                        match skip_ws r3 with
                        | ","%u :: r4 => parse_members fuel' r4 (set_prop k v acc)
                        | "}"%u :: r4 => Some (VObj (set_prop k v acc), r4)
                        | _ => None
                        end
                    | None => None
                    end
                | _ => None
                end
            | None => None
            end
          else None
      | [] => None
      end
  end.
End Containers.

Fixpoint parse_value (fuel : nat) (s : string) : option (value * string) :=
  match fuel with
  | O => None
  | S fuel' =>
      match skip_ws s with
      | [] => None
      | "{"%u :: r =>
          match skip_ws r with
          | "}"%u :: r' => Some (VObj [], r')
          | _ => parse_members (parse_value fuel') fuel' r []
          end
      | "["%u :: r =>
          match skip_ws r with
          | "]"%u :: r' => Some (VArr [], r')
          | _ => parse_elements (parse_value fuel') fuel' r []
          end
      | (c :: r) as t =>
          if c =? dquote then
            match read_string r with
            | Some (str, r') => Some (VStr str, r')
            | None => None
            end
          else
            match strip_prefix "true" t, strip_prefix "false" t, strip_prefix "null" t with
            | Some r', _, _ => Some (VBool true, r')
            | _, Some r', _ => Some (VBool false, r')
            | _, _, Some r' => Some (VNull, r')
            | None, None, None =>
                match read_number t with
                | Some (x, r') => Some (VNum x, r')
                | None => None
                end
            end
      end
  end.

(** [JSON.parse(text)]; [None] is the SyntaxError. A value nests at most
    as deep as the text is long, which bounds the recursion. *)
Definition JSON_parse (text : string) : option value :=
  match parse_value (S (length text)) text with
  | Some (v, r) => if is_empty (skip_ws r) then Some v else None
  | None => None
  end.

(** ** JSON.stringify *)

Definition hex_digit (n : Z) : code_unit := if n <? 10 then 48 + n else 87 + n.

(** [\uXXXX], in lower case. *)
Definition unicode_escaped (c : code_unit) : string :=
  [ backslash; "u"%u;
    hex_digit (c / 4096 mod 16); hex_digit (c / 256 mod 16);
    hex_digit (c / 16 mod 16); hex_digit (c mod 16) ].

(** One code unit that is no surrogate, inside a JSON string literal. *)
Definition escape (c : code_unit) : string :=
  match c with
  | 34 => [backslash; dquote]
  | 92 => [backslash; backslash]
  | 8 => [backslash; "b"%u]
  | 9 => [backslash; "t"%u]
  | 10 => [backslash; "n"%u]
  | 12 => [backslash; "f"%u]
  | 13 => [backslash; "r"%u]
  | _ => if c <? 32 then unicode_escaped c else [c]
  end.

Definition is_leading_surrogate (c : code_unit) : bool := (55296 <=? c) && (c <=? 56319).
Definition is_trailing_surrogate (c : code_unit) : bool := (56320 <=? c) && (c <=? 57343).

(** A surrogate pair stays as it is; a surrogate on its own is escaped. *)
Fixpoint escape_all (s : string) : string :=
  match s with
  | [] => []
  | c :: r =>
      if is_leading_surrogate c then
        match r with
        | d :: r' =>
            if is_trailing_surrogate d then c :: d :: escape_all r'
            else unicode_escaped c ++ escape_all r
        | [] => unicode_escaped c
        end
      else if is_trailing_surrogate c then unicode_escaped c ++ escape_all r
      else escape c ++ escape_all r
  end.

(** QuoteJSONString *)
Definition quote (s : string) : string := dquote :: escape_all s ++ [dquote].

(** One member of an object, given the text of its value. *)
Definition member (k text : string) : string := quote k ++ ":" ++ text.

(** The texts joined by commas. *)
Fixpoint join_commas (l : list string) : string :=
  match l with
  | [] => []
  | [x] => x
  | x :: r => x ++ "," ++ join_commas r
  end.

(** [JSON.stringify(v)]; [None] is undefined. A number that is not
    finite prints as [null]; an undefined element of an array prints as
    [null]; a property whose value is undefined is left out. An own
    property named [toJSON] holds no function and is printed like any
    other. *)
Fixpoint JSON_stringify (v : value) : option string :=
  match v with
  | VUndefined => None
  | VNull => Some "null"
  | VBool b => Some (if b then "true" else "false")
  | VNum x => Some (if is_finite x then number_to_string x else "null")
  | VStr s => Some (quote s)
  | VArr items =>
      Some ("[" ++ join_commas
                     ((fix elements (l : list value) : list string :=
                         match l with
                         | [] => []
                         | x :: r =>
                             match JSON_stringify x with
                             | Some text => text :: elements r
                             | None => "null" :: elements r
                             end
                         end) items) ++ "]")
  | VObj props =>
      Some ("{" ++ join_commas
                     ((fix members (l : list (string * value)) : list string :=
                         match l with
                         | [] => []
                         | (k, x) :: r =>
                             match JSON_stringify x with
                             | Some text => member k text :: members r
                             | None => members r
                             end
                         end) props) ++ "}")
  end.

End JS.

(* ================================================================== *)
(** * Requests, responses and effects *)
(* ================================================================== *)

Module Http.
Import JS.

(** The object [recordEvent] receives, and the eight parameters of its
    INSERT, in the order of the columns. *)
Record row : Type := {
  session_id : value;
  user_agent : value;
  ip : value;
  page : value;
  step : value;
  section_id : value;
  event_name : value;
  payload : value
}.

(** What a handler does to the outside, in the order it does it. *)
Inductive effect : Type :=
| Fetch (url authorization : string) (body : option string)
    (* fetch(url, {method: "POST", headers, body}), body a string or undefined *)
| Insert (params : row)
    (* pool.query("INSERT INTO events ...", params), resolved *)
| LogEvent (r : row)
    (* logger.info({type: "analytics", ...r}, "event") *)
| LogError (msg : string) (err : error)
    (* logger.error({err}, msg) *)
| ConsoleError (msg : string) (err : error).
    (* console.error(msg, err) *)

Definition trace : Type := list effect.

Inductive outcome (A : Type) : Type :=
| Return (a : A)
| Throw (e : error).
Arguments Return {A} a.
Arguments Throw {A} e.

(** Code that may throw and that extends the trace. *)
Definition M (A : Type) : Type := trace -> outcome A * trace.

Definition ret {A} (a : A) : M A := fun t => (Return a, t).

Definition throw {A} (e : error) : M A := fun t => (Throw e, t).

Definition bind {A B} (c : M A) (k : A -> M B) : M B :=
  fun t =>
    match c t with
    | (Return a, t') => k a t'
    | (Throw e, t') => (Throw e, t')
    end.

Definition emit (e : effect) : M unit := fun t => (Return tt, t ++ [e]).

Notation "x <- c ;; k" := (bind c (fun x => k))
  (at level 61, c at next level, right associativity) : js_scope.
Notation "c ;; k" := (bind c (fun _ => k))
  (at level 61, right associativity) : js_scope.

(** [v.k]: a TypeError when [v] is undefined or null. *)
Definition get (v : value) (k : string) : M value :=
  if nullish v then throw TypeError else ret (prop v k).

(** [v?.k] and [v?.[0]] *)
Definition opt_prop (v : value) (k : string) : value :=
  if nullish v then VUndefined else prop v k.

Definition opt_first (v : value) : value :=
  if nullish v then VUndefined else first v.

(** [String(v)], [Number(v)] and a template literal's [${v}]: the
    conversion, or its TypeError thrown. *)
Definition js_String (v : value) : M string :=
  match to_string v with
  | Some s => ret s
  | None => throw TypeError
  end.

Definition js_Number (v : value) : M number :=
  match to_number v with
  | Some x => ret x
  | None => throw TypeError
  end.

(** [v.slice(0, n)]: strings and arrays have the method. *)
Definition call_slice (v : value) (n : nat) : M value :=
  match v with
  | VStr s => ret (VStr (slice n s))
  | VArr items => ret (VArr (firstn n items))
  | _ => throw TypeError
  end.

(** The default of a destructuring pattern: taken when the property is
    undefined. *)
Definition default_to (v d : value) : value :=
  match v with VUndefined => d | _ => v end.

(** [l.filter(p)], [l.map(f)], [l.some(p)], [l.find(p)] with callbacks
    that may throw. *)
Fixpoint filterM (p : value -> M bool) (l : list value) : M (list value) :=
  match l with
  | [] => ret []
  | x :: r =>
      keep <- p x ;;
      r' <- filterM p r ;;
      ret (if keep then x :: r' else r')
  end.

Fixpoint mapM (f : value -> M value) (l : list value) : M (list value) :=
  match l with
  | [] => ret []
  | x :: r =>
      y <- f x ;;
      r' <- mapM f r ;;
      ret (y :: r')
  end.

Fixpoint someM (p : value -> M bool) (l : list value) : M bool :=
  match l with
  | [] => ret false
  | x :: r =>
      b <- p x ;;
      if b then ret true else someM p r
  end.

Fixpoint findM (p : value -> M bool) (l : list value) : M value :=
  match l with
  | [] => ret VUndefined
  | x :: r =>
      b <- p x ;;
      if b then ret x else findM p r
  end.

(** [process.env]: every variable is a string or undefined. *)
Record environment : Type := {
  OPENAI_API_KEY : option string;
  OPENAI_API_BASE : option string;
  DATABASE_URL : option string;
  ANALYTICS_SAMPLE : option string;
  ANALYTICS_LOG_CHAT_CONTENT : option string
}.

Definition env_value (o : option string) : value :=
  match o with Some s => VStr s | None => VUndefined end.

(** How the outside answers during one request: the upstream, the
    database on the INSERT, and the draw of [Math.random()]. *)
Inductive fetch_result : Type :=
| NoResponse
    (* fetch rejects, or the body of the response cannot be read *)
| Response (status : Z) (text : string).
    (* r.status, an HTTP status code, and the text of r.text() *)

Record world : Type := {
  upstream : fetch_result;
  query_resolves : bool;
  random : number
}.

(** [r.ok] *)
Definition ok (status : Z) : bool := (200 <=? status) && (status <=? 299).

Definition fetch (w : world) (url authorization : string) (body : option string)
  : M (Z * string) :=
  emit (Fetch url authorization body) ;;
  match upstream w with
  | NoResponse => throw FetchFailed
  | Response status text => ret (status, text)
  end.

Definition parse_json (text : string) : M value :=
  match JSON_parse text with
  | Some v => ret v
  | None => throw SyntaxError
  end.

Record request : Type := {
  body : value;                        (* req.body, after express.json *)
  headers : list (string * string);    (* req.headers, names in lower case *)
  remoteAddress : option string        (* req.socket?.remoteAddress *)
}.

Fixpoint assoc (k : string) (l : list (string * string)) : option string :=
  match l with
  | [] => None
  | (k', v) :: r => if eqb k k' then Some v else assoc k r
  end.

(** [req.headers[name]] *)
Definition header (req : request) (name : string) : value :=
  env_value (assoc name (headers req)).

Inductive response : Type :=
| Json (status : Z) (body : value)   (* res.status(status).json(body) *)
| Text (body : string)               (* res.send(body) *)
| Refused (msg : string).            (* the error of the cors callback, before any route *)

(** A route handler always answers; its [catch] turns what the [try]
    block throws into a response. *)
Definition handler : Type := trace -> response * trace.

Definition try_catch (block : M response) (on_error : error -> handler) : handler :=
  fun t =>
    match block t with
    | (Return r, t') => (r, t')
    | (Throw e, t') => on_error e t'
    end.

(** [{error: msg}] *)
Definition error_body (msg : string) : value := VObj [("error", VStr msg)].

(** [set.has(v)] on a set of strings. *)
Definition has (set : list string) (v : value) : bool :=
  match v with
  | VStr s => existsb (eqb s) set
  | _ => false
  end.

Inductive verdict : Type :=
| Allow               (* cb(null, true) *)
| Deny (msg : string). (* cb(new Error(msg)) *)

End Http.

(* ================================================================== *)
(** * src/server.js: the chat proxy *)
(* ================================================================== *)

Module Server.
Import JS Http.

Definition ALLOWED : list string :=
  [ "https://jiaruilei.github.io";
    "http://localhost:3000";
    "http://localhost:5173";
    "http://localhost:5500" ].

(** The [origin(origin, cb)] callback given to [cors]. *)
Definition origin (o : value) : verdict :=
  if negb (truthy o) || has ALLOWED o then Allow else Deny "Not allowed by CORS".

(** [m => m && typeof m.role === "string" && typeof m.content === "string"] *)
Definition well_formed (m : value) : M bool :=
  if truthy m then
    role <- get m "role" ;;
    if eqb (typeof role) "string" then
      content <- get m "content" ;;
      ret (eqb (typeof content) "string")
    else ret false
  else ret false.

(** [m => ({ role: m.role, content: String(m.content) })] *)
Definition turn (m : value) : M value :=
  role <- get m "role" ;;
  content <- get m "content" ;;
  text <- js_String content ;;
  ret (VObj [("role", role); ("content", VStr text)]).

(** [m => m.role === name] *)
Definition has_role (name : string) (m : value) : M bool :=
  role <- get m "role" ;;
  ret (is_string role name).

(** The array [clean]: [messages], emptied unless an array, filtered and
    mapped. *)
Definition clean (messages : value) : M (list value) :=
  let items := match messages with VArr l => l | _ => [] end in
  kept <- filterM well_formed items ;;
  mapM turn kept.

(** [if (system && !clean.some(m => m.role === "system")) clean.unshift(..)]:
    the array as the statement leaves it. [String(system)] is evaluated
    only when the turn is put in front. *)
Definition unshift_system (system : value) (turns : list value) : M (list value) :=
  if truthy system then
    present <- someM (has_role "system") turns ;;
    if present then ret turns
    else
      text <- js_String system ;;
      ret (VObj [("role", VStr "system"); ("content", VStr text)] :: turns)
  else ret turns.

(** The object the handler serializes as the body of the upstream request:
    [{model, temperature: isNaN(Number(temperature)) ? 0.2 :
    Number(temperature), messages: clean}]. *)
Definition completion (model temperature : value) (turns : list value) : M value :=
  x <- js_Number temperature ;;
  effective <- (if isNaN x then ret 0.2%float else js_Number temperature) ;;
  ret (VObj [("model", model); ("temperature", VNum effective); ("messages", VArr turns)]).

(** [app.post("/api/chat", ...)] *)
Definition api_chat (env : environment) (w : world) (req : request) : handler :=
  try_catch
    (let key := env_value (OPENAI_API_KEY env) in
     let base := or_else (env_value (OPENAI_API_BASE env)) (VStr "https://api.openai.com/v1") in
     if negb (truthy key) then ret (Json 500 (error_body "Missing OPENAI_API_KEY"))
     else
       let b := or_else (body req) (VObj []) in
       model <- get b "model" ;;
       temperature <- get b "temperature" ;;
       system <- get b "system" ;;
       messages <- get b "messages" ;;
       let model := default_to model (VStr "gpt-4o-mini") in
       let temperature := default_to temperature (VNum 0.2%float) in
       let system := default_to system (VStr "") in
       let messages := default_to messages (VArr []) in
       turns <- clean messages ;;
       turns <- unshift_system system turns ;;
       base_text <- js_String base ;;
       key_text <- js_String key ;;
       object <- completion model temperature turns ;;
       r <- fetch w (base_text ++ "/chat/completions") ("Bearer " ++ key_text)
                  (JSON_stringify object) ;;
       let '(status, text) := r in
       if negb (ok status) then ret (Json status (error_body text))
       else
         data <- parse_json text ;;
         let reply :=
           coalesce (opt_prop (opt_prop (opt_first (opt_prop data "choices")) "message") "content")
                    (VStr "") in
         ret (Json 200 (VObj [("reply", reply)])))
    (fun err t => (Json 500 (error_body "Proxy error"), t ++ [ConsoleError "Proxy error:" err])).

Inductive route : Type :=
| GET_health   (* GET /api/health *)
| GET_root     (* GET / *)
| POST_chat.   (* POST /api/chat *)

(** The application: the cors middleware, then the route. *)
Definition app (env : environment) (w : world) (rt : route) (req : request) : handler :=
  match origin (header req "origin") with
  | Deny msg => fun t => (Refused msg, t)
  | Allow =>
      match rt with
      | GET_health => fun t => (Json 200 (VObj [("ok", VBool true)]), t)
      | GET_root => fun t => (Text "CE2407A AI-Coach proxy is running.", t)
      | POST_chat => api_chat env w req
      end
  end.

End Server.

(* ================================================================== *)
(** * The proxy with analytics: [recordEvent], /api/track, /api/chat *)
(* ================================================================== *)

Module Analytics.
Import JS Http.

(** The same allow-list and callback as src/server.js. *)
Definition ALLOWED : list string :=
  [ "https://jiaruilei.github.io";
    "http://localhost:3000";
    "http://localhost:5173";
    "http://localhost:5500" ].

Definition origin (o : value) : verdict :=
  if negb (truthy o) || has ALLOWED o then Allow else Deny "Not allowed by CORS".

(** [pool] is a connection pool when DATABASE_URL is set, else null. *)
Definition pool (env : environment) : bool := truthy (env_value (DATABASE_URL env)).

(** The first entry of x-forwarded-for, trimmed, else the address of the
    socket, else null. *)
Definition clientIp (req : request) : value :=
  match header req "x-forwarded-for" with
  | VStr fwd => VStr (trim (split_comma_head fwd))
  | _ => or_else (env_value (remoteAddress req)) VNull
  end.

(** With a pool: one INSERT, awaited, whose rejection is thrown on.
    Without: one structured log line. *)
Definition recordEvent (env : environment) (w : world) (r : row) : M unit :=
  if pool env then
    if query_resolves w then
      emit (Insert {| session_id := or_else (session_id r) VNull;
                      user_agent := or_else (user_agent r) VNull;
                      ip := or_else (ip r) VNull;
                      page := or_else (page r) VNull;
                      step := if Number_isFinite (step r) then step r else VNull;
                      section_id := or_else (section_id r) VNull;
                      event_name := event_name r;
                      payload := or_else (payload r) VNull |})
    else throw QueryFailed
  else emit (LogEvent r).

(** [typeof v === "string" ? v : null] *)
Definition string_or_null (v : value) : value :=
  if eqb (typeof v) "string" then v else VNull.

(** [app.post("/api/track", ...)] *)
Definition api_track (env : environment) (w : world) (req : request) : handler :=
  try_catch
    (let b := or_else (body req) (VObj []) in
     event <- get b "event" ;;
     page <- get b "page" ;;
     step <- get b "step" ;;
     sectionId <- get b "sectionId" ;;
     sessionId <- get b "sessionId" ;;
     payload <- get b "payload" ;;
     if negb (truthy event) || negb (eqb (typeof event) "string") then
       ret (Json 400 (error_body "Missing or invalid 'event' field"))
     else
       name <- call_slice event 64 ;;
       let r := {| session_id := string_or_null sessionId;
                   user_agent := or_else (header req "user-agent") (VStr "");
                   ip := clientIp req;
                   page := string_or_null page;
                   step := if Number_isFinite step then step else VNull;
                   section_id := string_or_null sectionId;
                   event_name := name;
                   payload := if truthy payload && eqb (typeof payload) "object"
                              then payload else VNull |} in
       sample <- js_Number (coalesce (env_value (ANALYTICS_SAMPLE env)) (VStr "1")) ;;
       if PrimFloat.ltb sample PrimFloat.one && PrimFloat.ltb sample (random w) then
         ret (Json 200 (VObj [("ok", VBool true); ("sampled", VBool false)]))
       else
         recordEvent env w r ;;
         ret (Json 200 (VObj [("ok", VBool true)])))
    (fun err t => (Json 500 (error_body "track failed"), t ++ [LogError "track failed" err])).

(** The sanitizer and the upstream body, as in src/server.js. *)
Definition well_formed (m : value) : M bool :=
  if truthy m then
    role <- get m "role" ;;
    if eqb (typeof role) "string" then
      content <- get m "content" ;;
      ret (eqb (typeof content) "string")
    else ret false
  else ret false.

Definition turn (m : value) : M value :=
  role <- get m "role" ;;
  content <- get m "content" ;;
  text <- js_String content ;;
  ret (VObj [("role", role); ("content", VStr text)]).

Definition has_role (name : string) (m : value) : M bool :=
  role <- get m "role" ;;
  ret (is_string role name).

Definition clean (messages : value) : M (list value) :=
  let items := match messages with VArr l => l | _ => [] end in
  kept <- filterM well_formed items ;;
  mapM turn kept.

Definition unshift_system (system : value) (turns : list value) : M (list value) :=
  if truthy system then
    present <- someM (has_role "system") turns ;;
    if present then ret turns
    else
      text <- js_String system ;;
      ret (VObj [("role", VStr "system"); ("content", VStr text)] :: turns)
  else ret turns.

Definition completion (model temperature : value) (turns : list value) : M value :=
  x <- js_Number temperature ;;
  effective <- (if isNaN x then ret 0.2%float else js_Number temperature) ;;
  ret (VObj [("model", model); ("temperature", VNum effective); ("messages", VArr turns)]).

(** The fields both chat events share; [name] and [data] are the
    event's own. *)
Definition chat_event (req : request) (name : string) (data : value) : row :=
  {| session_id := or_else (header req "x-session-id") VNull;
     user_agent := or_else (header req "user-agent") (VStr "");
     ip := clientIp req;
     page := or_else (header req "referer") VNull;
     step := VNull;
     section_id := VNull;
     event_name := VStr name;
     payload := data |}.

(** [[...clean].reverse().find((m) => m.role === "user")?.content || ""] *)
Definition lastUser (turns : list value) : M value :=
  found <- findM (has_role "user") (rev turns) ;;
  ret (or_else (opt_prop found "content") (VStr "")).

(** [String(process.env.ANALYTICS_LOG_CHAT_CONTENT || "false") === "true"] *)
Definition logChatContent (env : environment) : M bool :=
  text <- js_String (or_else (env_value (ANALYTICS_LOG_CHAT_CONTENT env)) (VStr "false")) ;;
  ret (eqb text "true").

(** [app.post("/api/chat", ...)] *)
Definition api_chat (env : environment) (w : world) (req : request) : handler :=
  try_catch
    (let key := env_value (OPENAI_API_KEY env) in
     let base := or_else (env_value (OPENAI_API_BASE env)) (VStr "https://api.openai.com/v1") in
     if negb (truthy key) then ret (Json 500 (error_body "Missing OPENAI_API_KEY"))
     else
       let b := or_else (body req) (VObj []) in
       model <- get b "model" ;;
       temperature <- get b "temperature" ;;
       system <- get b "system" ;;
       messages <- get b "messages" ;;
       let model := default_to model (VStr "gpt-4o-mini") in
       let temperature := default_to temperature (VNum 0.2%float) in
       let system := default_to system (VStr "") in
       let messages := default_to messages (VArr []) in
       turns <- clean messages ;;
       turns <- unshift_system system turns ;;
       base_text <- js_String base ;;
       key_text <- js_String key ;;
       object <- completion model temperature turns ;;
       r <- fetch w (base_text ++ "/chat/completions") ("Bearer " ++ key_text)
                  (JSON_stringify object) ;;
       let '(status, text) := r in
       if negb (ok status) then
         recordEvent env w
           (chat_event req "coach_chat_error"
              (VObj [("status", VNum (number_of_Z status)); ("body", VStr (slice 512 text))])) ;;
         ret (Json status (error_body text))
       else
         data <- parse_json text ;;
         let reply :=
           coalesce (opt_prop (opt_prop (opt_first (opt_prop data "choices")) "message") "content")
                    (VStr "") in
         last <- lastUser turns ;;
         log <- logChatContent env ;;
         raw <- js_Number temperature ;;
         prompt_len <- get last "length" ;;
         prompt_sample <- (if log then call_slice last 500 else ret VUndefined) ;;
         reply_len <- get reply "length" ;;
         recordEvent env w
           (chat_event req "coach_chat"
              (VObj [ ("model", model);
                      ("temperature", VNum raw);
                      ("prompt_len", prompt_len);
                      ("prompt_sample", prompt_sample);
                      ("reply_len", reply_len) ])) ;;
         ret (Json 200 (VObj [("reply", reply)])))
    (fun err t => (Json 500 (error_body "Proxy error"), t ++ [LogError "Proxy error" err])).

Inductive route : Type :=
| GET_root     (* GET / *)
| GET_health   (* GET /api/health *)
| POST_track   (* POST /api/track *)
| POST_chat.   (* POST /api/chat *)

(** U+2011, the hyphen the greeting of this file is written with. *)
Definition non_breaking_hyphen : code_unit := 8209.

Definition app (env : environment) (w : world) (rt : route) (req : request) : handler :=
  match origin (header req "origin") with
  | Deny msg => fun t => (Refused msg, t)
  | Allow =>
      match rt with
      | GET_root =>
          fun t => (Text ("CE2407A AI" ++ [non_breaking_hyphen] ++ "Coach proxy is running."), t)
      | GET_health => fun t => (Json 200 (VObj [("ok", VBool true)]), t)
      | POST_track => api_track env w req
      | POST_chat => api_chat env w req
      end
  end.

End Analytics.

(* ================================================================== *)
(** * What the properties speak of *)
(* ================================================================== *)

Module Observe.
Import JS Http.

(** The analytics events of a trace: the rows inserted and the rows
    logged, oldest first. *)
Definition event_of (e : effect) : list row :=
  match e with
  | Insert r | LogEvent r => [r]
  | _ => []
  end.

Definition recorded (t : trace) : list row := flat_map event_of t.

(** The bodies sent to the upstream. *)
Definition request_of (e : effect) : list (option string) :=
  match e with
  | Fetch _ _ b => [b]
  | _ => []
  end.

Definition sent (t : trace) : list (option string) := flat_map request_of t.

(** A property of the request body as the handlers destructure it:
    [const { name = default } = req.body || {}]. *)
Definition field (body : value) (name : string) (default : value) : value :=
  default_to (prop (or_else body (VObj [])) name) default.

(** A value that is not an array counts as the empty sequence. *)
Definition elements (messages : value) : list value :=
  match messages with VArr l => l | _ => [] end.

(** An object with a string [role] and a string [content]. *)
Definition is_turn (m : value) : bool :=
  match m with
  | VObj props =>
      match lookup "role" props, lookup "content" props with
      | Some (VStr _), Some (VStr _) => true
      | _, _ => false
      end
  | _ => false
  end.

(** The turn kept for an element: its [role] and [content], nothing else. *)
Definition as_turn (m : value) : value :=
  VObj [("role", prop m "role"); ("content", prop m "content")].

(** The sanitized sequence: the well-formed elements, in their order. *)
Definition sanitized (messages : value) : list value :=
  map as_turn (filter is_turn (elements messages)).

(** A chat turn: exactly a string role and a string content. *)
Definition well_typed (m : value) : Prop :=
  exists role content, m = VObj [("role", VStr role); ("content", VStr content)].

Definition role_is (name : string) (m : value) : bool := is_string (prop m "role") name.

(** The content of the last turn of role [user], the empty string when
    there is none. *)
Definition last_user (turns : list value) : string :=
  match find (role_is "user") (rev turns) with
  | Some m => match prop m "content" with VStr s => s | _ => "" end
  | None => ""
  end.

(** The world in which the INSERT resolves ([true]) or rejects. *)
Definition with_query (b : bool) (w : world) : world :=
  {| upstream := upstream w; query_resolves := b; random := random w |}.

(** The record operation cannot fail: there is no pool, or the INSERT
    resolves. *)
Definition record_succeeds (env : environment) (w : world) : bool :=
  negb (Analytics.pool env) || query_resolves w.

(** A JSON object, as opposed to an array or a primitive. *)
Definition is_object (v : value) : bool :=
  match v with VObj _ => true | _ => false end.

Definition is_array (v : value) : bool :=
  match v with VArr _ => true | _ => false end.

(** The system turn with the content [text]. *)
Definition system_turn (text : string) : value :=
  VObj [("role", VStr "system"); ("content", VStr text)].

(** The conditional unshift puts a turn in front: [system] is truthy and
    no turn has role [system]. *)
Definition needs_system (system : value) (turns : list value) : bool :=
  truthy system && negb (existsb (role_is "system") turns).

(** The sequence after the conditional unshift; [None] when
    [String(system)] throws. *)
Definition with_system (system : value) (turns : list value) : option (list value) :=
  if needs_system system turns then
    match to_string system with
    | Some text => Some (system_turn text :: turns)
    | None => None
    end
  else Some turns.

(** The turns sent for a request body. *)
Definition turns_of (body : value) : option (list value) :=
  with_system (field body "system" (VStr "")) (sanitized (field body "messages" (VArr []))).

(** The temperature and the model a request body supplies, the defaults
    when absent. *)
Definition supplied_temperature (body : value) : value :=
  field body "temperature" (VNum 0.2%float).

Definition supplied_model (body : value) : value :=
  field body "model" (VStr "gpt-4o-mini").

(** What a chat handler has in hand when it calls the upstream: the
    model, [Number(temperature)] and the turns. *)
Record upstream_input : Type := {
  sent_model : value;
  raw_temperature : number;
  sent_turns : list value
}.

(** The input of the upstream call for a request body; [None] when
    [String(system)] or [Number(temperature)] throws. *)
Definition prepare (body : value) : option upstream_input :=
  match turns_of body, to_number (supplied_temperature body) with
  | Some turns, Some raw =>
      Some {| sent_model := supplied_model body; raw_temperature := raw; sent_turns := turns |}
  | _, _ => None
  end.

(** The temperature that stands for [raw]: 0.2 in place of NaN. *)
Definition effective (raw : number) : number := if isNaN raw then 0.2%float else raw.

(** The object serialized as the upstream body. *)
Definition upstream_object (p : upstream_input) : value :=
  VObj [ ("model", sent_model p);
         ("temperature", VNum (effective (raw_temperature p)));
         ("messages", VArr (sent_turns p)) ].

(** [process.env.OPENAI_API_BASE || "https://api.openai.com/v1"] and the
    key, as strings. *)
Definition api_base (env : environment) : string :=
  match OPENAI_API_BASE env with
  | Some (c :: r) => c :: r
  | _ => "https://api.openai.com/v1"
  end.

Definition api_key (env : environment) : string :=
  match OPENAI_API_KEY env with
  | Some key => key
  | None => ""
  end.

(** The upstream request of a chat call. *)
Definition chat_request (env : environment) (p : upstream_input) : effect :=
  Fetch (api_base env ++ "/chat/completions") ("Bearer " ++ api_key env)
        (JSON_stringify (upstream_object p)).

(** The bodies one chat request sends: one when the key is set and the
    conversions return, none otherwise. *)
Definition requests (env : environment) (body : value) : list (option string) :=
  if truthy (env_value (OPENAI_API_KEY env)) then
    match prepare body with
    | Some p => [JSON_stringify (upstream_object p)]
    | None => []
    end
  else [].

(** [data?.choices?.[0]?.message?.content ?? ""] *)
Definition reply_of (data : value) : value :=
  coalesce (opt_prop (opt_prop (opt_first (opt_prop data "choices")) "message") "content")
           (VStr "").

(** The content-logging toggle is on: the variable is exactly [true]. *)
Definition content_logging (env : environment) : bool :=
  match ANALYTICS_LOG_CHAT_CONTENT env with
  | Some s => eqb s "true"
  | None => false
  end.

(** The payload of the [coach_chat] event. *)
Definition chat_payload (env : environment) (p : upstream_input) (data : value) : value :=
  let last := last_user (sent_turns p) in
  VObj [ ("model", sent_model p);
         ("temperature", VNum (raw_temperature p));
         ("prompt_len", VNum (number_of_nat (length last)));
         ("prompt_sample", if content_logging env then VStr (slice 500 last) else VUndefined);
         ("reply_len", prop (reply_of data) "length") ].

(** The payload of the [coach_chat_error] event. *)
Definition error_payload (status : Z) (text : string) : value :=
  VObj [("status", VNum (number_of_Z status)); ("body", VStr (slice 512 text))].

(** The parameters of the INSERT for a row. *)
Definition insert_params (r : row) : row :=
  {| session_id := or_else (session_id r) VNull;
     user_agent := or_else (user_agent r) VNull;
     ip := or_else (ip r) VNull;
     page := or_else (page r) VNull;
     step := if Number_isFinite (step r) then step r else VNull;
     section_id := or_else (section_id r) VNull;
     event_name := event_name r;
     payload := or_else (payload r) VNull |}.

(** A handler that records [r] and then answers [resp], its [catch]
    answering 500 with [msg]: the response and the trace. *)
Definition record_then (env : environment) (w : world) (msg : string)
    (r : row) (resp : response) (t : trace) : response * trace :=
  if Analytics.pool env then
    if query_resolves w then (resp, t ++ [Insert (insert_params r)])
    else (Json 500 (error_body msg), t ++ [LogError msg QueryFailed])
  else (resp, t ++ [LogEvent r]).

(** The row [/api/track] builds from a request whose [event] is the
    string [name]. *)
Definition track_row (req : request) (name : string) : row :=
  let b := or_else (body req) (VObj []) in
  {| session_id := Analytics.string_or_null (prop b "sessionId");
     user_agent := or_else (header req "user-agent") (VStr "");
     ip := Analytics.clientIp req;
     page := Analytics.string_or_null (prop b "page");
     step := if Number_isFinite (prop b "step") then prop b "step" else VNull;
     section_id := Analytics.string_or_null (prop b "sectionId");
     event_name := VStr (slice 64 name);
     payload := if truthy (prop b "payload") && eqb (typeof (prop b "payload")) "object"
                then prop b "payload" else VNull |}.

(** The event is dropped by sampling: [sample < 1 && Math.random() >
    sample] for [sample = Number(process.env.ANALYTICS_SAMPLE ?? "1")]. *)
Definition sampled_out (env : environment) (w : world) : bool :=
  match to_number (coalesce (env_value (ANALYTICS_SAMPLE env)) (VStr "1")) with
  | Some sample => PrimFloat.ltb sample PrimFloat.one && PrimFloat.ltb sample (random w)
  | None => false
  end.

End Observe.

(* ================================================================== *)
(** * Concrete requests and environments *)
(* ================================================================== *)

Module Examples.
Import JS Http.

(** No database: events go to the log. *)
Definition log_only : environment :=
  {| OPENAI_API_KEY := Some "sk-test";
     OPENAI_API_BASE := None;
     DATABASE_URL := None;
     ANALYTICS_SAMPLE := None;
     ANALYTICS_LOG_CHAT_CONTENT := None |}.

(** A database is configured: events are inserted. *)
Definition persisted : environment :=
  {| OPENAI_API_KEY := Some "sk-test";
     OPENAI_API_BASE := None;
     DATABASE_URL := Some "postgres://events";
     ANALYTICS_SAMPLE := None;
     ANALYTICS_LOG_CHAT_CONTENT := None |}.

Definition quoted (s : string) : string := dquote :: s ++ [dquote].

(** The text [{"choices":[{"message":{"content":"Hi there"}}]}]. *)
Definition hi_there : string :=
  "{" ++ quoted "choices" ++ ":[{" ++ quoted "message" ++ ":{" ++ quoted "content" ++ ":"
      ++ quoted "Hi there" ++ "}}]}".

(** The same completion with a typographic apostrophe written as an
    escape: [{"choices":[{"message":{"content":"It’s"}}]}]. *)
Definition its_escaped : string :=
  "{" ++ quoted "choices" ++ ":[{" ++ quoted "message" ++ ":{" ++ quoted "content" ++ ":"
      ++ quoted ("It" ++ [backslash] ++ "u2019s") ++ "}}]}".

Definition answers (status : Z) (text : string) (resolves : bool) : world :=
  {| upstream := Response status text; query_resolves := resolves; random := 0.5%float |}.

Definition user_turn (content : string) : value :=
  VObj [("role", VStr "user"); ("content", VStr content)].

Definition plain (b : value) : request :=
  {| body := b; headers := [("user-agent", "curl/8")]; remoteAddress := Some "127.0.0.1" |}.

(** [{temperature: "abc", messages: [{role: "user", content: "hello"}]}] *)
Definition chat_abc : request :=
  plain (VObj [("temperature", VStr "abc"); ("messages", VArr [user_turn "hello"])]).

(** A body no string can be made of: [{toString: 1}]. *)
Definition unprintable : value := VObj [("toString", VNum 1%float)].

(** [{system: {toString: 1}}] and [{temperature: {toString: 1}}] *)
Definition chat_bad_system : request := plain (VObj [("system", unprintable)]).

Definition chat_bad_temperature : request := plain (VObj [("temperature", unprintable)]).

(** What the handlers have in hand for [chat_abc]. *)
Definition abc_input : Observe.upstream_input :=
  {| Observe.sent_model := VStr "gpt-4o-mini";
     Observe.raw_temperature := nan;
     Observe.sent_turns := [user_turn "hello"] |}.

(** [{event: "click"}] *)
Definition track_click : request := plain (VObj [("event", VStr "click")]).

(** [{event: "click", payload: [1]}] *)
Definition track_array : request :=
  plain (VObj [("event", VStr "click"); ("payload", VArr [VNum 1%float])]).

(** [{event: "click", step: 1.5}] *)
Definition track_half_step : request :=
  plain (VObj [("event", VStr "click"); ("step", VNum 1.5%float)]).

End Examples.

(* ================================================================== *)
(** * Measures on responses, strings and rows *)
(* ================================================================== *)

Module Measure.
Import JS Http.

(** The HTTP status a response carries; the framework answers a refused
    request itself. *)
Definition status_code (r : response) : option Z :=
  match r with
  | Json status _ => Some status
  | Text _ => Some 200
  | Refused _ => None
  end.

(** The code unit [c] occurs in [s]. *)
Fixpoint contains (c : code_unit) (s : string) : bool :=
  match s with
  | [] => false
  | c' :: r => (c =? c') || contains c r
  end.

(** [s.startsWith(p)] *)
Fixpoint starts_with (p s : string) : bool :=
  match p, s with
  | [], _ => true
  | a :: p', b :: s' => (a =? b) && starts_with p' s'
  | _ :: _, [] => false
  end.

(** The shapes of the fields of a row. *)
Definition text_or_null (v : value) : bool :=
  match v with VStr _ | VNull => true | _ => false end.

Definition finite_or_null (v : value) : bool :=
  match v with VNull => true | _ => Number_isFinite v end.

Definition structure_or_null (v : value) : bool :=
  match v with VNull | VObj _ | VArr _ => true | _ => false end.

(** A name: a string, not empty, of at most 64 code units. *)
Definition named (v : value) : bool :=
  match v with
  | VStr s => negb (is_empty s) && (length s <=? 64)%nat
  | _ => false
  end.

(** The shape every recorded row has. [step] is any finite number: the
    handlers do not round it, although the column is an INTEGER. *)
Definition shaped (r : row) : bool :=
  text_or_null (session_id r) && text_or_null (user_agent r) && text_or_null (ip r)
  && text_or_null (page r) && finite_or_null (step r) && text_or_null (section_id r)
  && named (event_name r) && structure_or_null (payload r).

(** What [x || null] leaves: null, or a truthy value. *)
Definition null_or_truthy (v : value) : bool :=
  match v with VNull => true | _ => truthy v end.

End Measure.

(* ================================================================== *)
(** * Running the monad *)
(* ================================================================== *)

Import JS Http Observe Examples.

Lemma string_eqb_refl (s : string) : eqb s s = true.
Proof. induction s as [|c r IH]; simpl; [reflexivity|]. now rewrite Z.eqb_refl. Qed.

Lemma string_eqb_eq (a b : string) : eqb a b = true <-> a = b.
Proof.
  split; [|intros ->; apply string_eqb_refl].
  revert b. induction a as [|x a IH]; intros [|y b]; simpl; try discriminate; [reflexivity|].
  intros H. apply andb_true_iff in H. destruct H as [Hx Hr].
  apply Z.eqb_eq in Hx. subst. f_equal. now apply IH.
Qed.

Lemma bind_return {A B} (c : M A) (k : A -> M B) (t t' : trace) (a : A) :
  c t = (Return a, t') -> bind c k t = k a t'.
Proof. intros H. unfold bind. now rewrite H. Qed.

Lemma bind_throw {A B} (c : M A) (k : A -> M B) (t t' : trace) (e : error) :
  c t = (Throw e, t') -> bind c k t = (Throw e, t').
Proof. intros H. unfold bind. now rewrite H. Qed.

Lemma truthy_not_nullish (v : value) : truthy v = true -> nullish v = false.
Proof. destruct v; simpl; congruence. Qed.

Lemma get_truthy (v : value) (k : string) (t : trace) :
  truthy v = true -> get v k t = (Return (prop v k), t).
Proof. intros H. unfold get. now rewrite (truthy_not_nullish v H). Qed.

Lemma or_else_object_truthy (v : value) : truthy (or_else v (VObj [])) = true.
Proof. unfold or_else. destruct (truthy v) eqn:E; [exact E | reflexivity]. Qed.

Lemma get_body (v : value) (k : string) (t : trace) :
  get (or_else v (VObj [])) k t = (Return (prop (or_else v (VObj [])) k), t).
Proof. apply get_truthy, or_else_object_truthy. Qed.

(** [String(..)] and [Number(..)], run. *)
Lemma js_String_run (v : value) (t : trace) :
  js_String v t = match to_string v with
                  | Some s => (Return s, t)
                  | None => (Throw TypeError, t)
                  end.
Proof. unfold js_String. now destruct (to_string v). Qed.

Lemma js_Number_run (v : value) (t : trace) :
  js_Number v t = match to_number v with
                  | Some x => (Return x, t)
                  | None => (Throw TypeError, t)
                  end.
Proof. unfold js_Number. now destruct (to_number v). Qed.

(** ** The sanitizer *)

Lemma well_formed_run (m : value) (t : trace) :
  Analytics.well_formed m t = (Return (is_turn m), t).
Proof.
  unfold Analytics.well_formed, get, bind, ret, throw.
  destruct m as [| |b|x|s|items|props]; simpl; try reflexivity.
  - now destruct b.
  - now destruct (_ || _)%bool.
  - now destruct (is_empty s).
  - destruct (lookup "role" props) as [[| |b|x|s|items|ps]|]; simpl; try reflexivity.
    destruct (lookup "content" props) as [[| |b|x|s'|items|ps]|]; reflexivity.
Qed.

Lemma filter_run (l : list value) (t : trace) :
  filterM Analytics.well_formed l t = (Return (filter is_turn l), t).
Proof.
  induction l as [|m l IH]; simpl; [reflexivity|].
  rewrite (bind_return _ _ _ _ _ (well_formed_run m t)).
  rewrite (bind_return _ _ _ _ _ IH).
  unfold ret. now destruct (is_turn m).
Qed.

Lemma is_turn_object (m : value) :
  is_turn m = true ->
  exists props role content,
    m = VObj props /\ lookup "role" props = Some (VStr role)
    /\ lookup "content" props = Some (VStr content).
Proof.
  unfold is_turn.
  destruct m as [| |b|x|s|items|props]; try discriminate.
  destruct (lookup "role" props) as [[| |b|x|r|items|ps]|] eqn:Hr; try discriminate.
  destruct (lookup "content" props) as [[| |b|x|c|items|ps]|] eqn:Hc; try discriminate.
  intros _. exists props, r, c. repeat split; assumption.
Qed.

Lemma turn_run (m : value) (t : trace) :
  is_turn m = true -> Analytics.turn m t = (Return (as_turn m), t).
Proof.
  intros H. destruct (is_turn_object m H) as (props & r & c & -> & Hr & Hc).
  unfold Analytics.turn, as_turn.
  rewrite (bind_return _ _ t t (prop (VObj props) "role")) by reflexivity.
  rewrite (bind_return _ _ t t (prop (VObj props) "content")) by reflexivity.
  unfold prop. rewrite Hr, Hc. reflexivity.
Qed.

Lemma map_run (l : list value) (t : trace) :
  Forall (fun m => is_turn m = true) l ->
  mapM Analytics.turn l t = (Return (map as_turn l), t).
Proof.
  induction 1 as [|m l Hm _ IH]; simpl; [reflexivity|].
  rewrite (bind_return _ _ _ _ _ (turn_run m t Hm)).
  rewrite (bind_return _ _ _ _ _ IH). reflexivity.
Qed.

Lemma filter_all (l : list value) : Forall (fun m => is_turn m = true) (filter is_turn l).
Proof. apply Forall_forall. intros m Hm. now apply filter_In in Hm. Qed.

Lemma clean_run (messages : value) (t : trace) :
  Analytics.clean messages t = (Return (sanitized messages), t).
Proof.
  unfold Analytics.clean, sanitized.
  change (match messages with VArr l => l | _ => [] end) with (elements messages).
  rewrite (bind_return _ _ _ _ _ (filter_run (elements messages) t)).
  apply map_run, filter_all.
Qed.

Lemma as_turn_typed (m : value) : is_turn m = true -> well_typed (as_turn m).
Proof.
  intros H. destruct (is_turn_object m H) as (props & r & c & -> & Hr & Hc).
  exists r, c. unfold as_turn, prop. now rewrite Hr, Hc.
Qed.

Lemma sanitized_typed (messages : value) : Forall well_typed (sanitized messages).
Proof.
  unfold sanitized. apply Forall_forall. intros m Hm.
  apply in_map_iff in Hm. destruct Hm as (x & <- & Hx).
  apply filter_In in Hx. now apply as_turn_typed.
Qed.

Lemma well_typed_truthy (m : value) : well_typed m -> truthy m = true.
Proof. intros (r & c & ->). reflexivity. Qed.

Lemma has_role_run (name : string) (m : value) (t : trace) :
  well_typed m -> Analytics.has_role name m t = (Return (role_is name m), t).
Proof.
  intros H. unfold Analytics.has_role.
  now rewrite (bind_return _ _ _ _ _ (get_truthy m "role" t (well_typed_truthy m H))).
Qed.

Lemma some_run (name : string) (l : list value) (t : trace) :
  Forall well_typed l ->
  someM (Analytics.has_role name) l t = (Return (existsb (role_is name) l), t).
Proof.
  induction 1 as [|m l Hm _ IH]; simpl; [reflexivity|].
  rewrite (bind_return _ _ _ _ _ (has_role_run name m t Hm)).
  destruct (role_is name m); [reflexivity | exact IH].
Qed.

Lemma find_run (name : string) (l : list value) (t : trace) :
  Forall well_typed l ->
  findM (Analytics.has_role name) l t =
    (Return (match find (role_is name) l with Some m => m | None => VUndefined end), t).
Proof.
  induction 1 as [|m l Hm _ IH]; simpl; [reflexivity|].
  rewrite (bind_return _ _ _ _ _ (has_role_run name m t Hm)).
  destruct (role_is name m); [reflexivity | exact IH].
Qed.

(** The conditional unshift returns the sequence with the system turn,
    or throws the TypeError of [String(system)]. *)
Lemma unshift_run (system : value) (turns : list value) (t : trace) :
  Forall well_typed turns ->
  Analytics.unshift_system system turns t =
    match with_system system turns with
    | Some out => (Return out, t)
    | None => (Throw TypeError, t)
    end.
Proof.
  intros H. unfold Analytics.unshift_system, with_system, needs_system.
  destruct (truthy system); simpl; [|reflexivity].
  rewrite (bind_return _ _ _ _ _ (some_run "system" turns t H)).
  destruct (existsb (role_is "system") turns); [reflexivity|]. simpl.
  unfold bind. rewrite js_String_run. now destruct (to_string system).
Qed.

Lemma system_turn_typed (text : string) : well_typed (system_turn text).
Proof. now exists "system", text. Qed.

Lemma with_system_typed (system : value) (turns out : list value) :
  Forall well_typed turns -> with_system system turns = Some out -> Forall well_typed out.
Proof.
  intros H. unfold with_system.
  destruct (needs_system system turns).
  - destruct (to_string system) as [text|]; [|discriminate].
    intros E. injection E as <-. constructor; [apply system_turn_typed | exact H].
  - intros E. now injection E as <-.
Qed.

Lemma turns_of_typed (body : value) (out : list value) :
  turns_of body = Some out -> Forall well_typed out.
Proof. apply with_system_typed, sanitized_typed. Qed.

Lemma lastUser_run (turns : list value) (t : trace) :
  Forall well_typed turns ->
  Analytics.lastUser turns t = (Return (VStr (last_user turns)), t).
Proof.
  intros H. unfold Analytics.lastUser, last_user.
  assert (Hrev : Forall well_typed (rev turns)).
  { apply Forall_forall. intros m Hm. apply in_rev in Hm.
    now apply (proj1 (Forall_forall _ _) H). }
  rewrite (bind_return _ _ _ _ _ (find_run "user" (rev turns) t Hrev)).
  destruct (find (role_is "user") (rev turns)) as [m|] eqn:E; [|reflexivity].
  apply find_some in E. destruct E as [Hin _].
  destruct (proj1 (Forall_forall _ _) Hrev m Hin) as (r & c & ->).
  unfold ret, opt_prop, or_else, prop. simpl.
  now destruct c.
Qed.

(** The body of the upstream request is built, or [Number(temperature)]
    throws. *)
Lemma completion_run (model temperature : value) (turns : list value) (t : trace) :
  Analytics.completion model temperature turns t =
    match to_number temperature with
    | Some raw =>
        (Return (VObj [ ("model", model); ("temperature", VNum (effective raw));
                        ("messages", VArr turns) ]), t)
    | None => (Throw TypeError, t)
    end.
Proof.
  unfold Analytics.completion, bind. rewrite js_Number_run.
  destruct (to_number temperature) as [raw|] eqn:E; [|reflexivity].
  unfold effective. destruct (isNaN raw); [reflexivity|].
  now rewrite js_Number_run, E.
Qed.

Lemma logChatContent_run (env : environment) (t : trace) :
  Analytics.logChatContent env t = (Return (content_logging env), t).
Proof.
  unfold Analytics.logChatContent, content_logging, bind.
  destruct (ANALYTICS_LOG_CHAT_CONTENT env) as [[|c r]|]; reflexivity.
Qed.

Lemma api_base_run (env : environment) (t : trace) :
  js_String (or_else (env_value (OPENAI_API_BASE env)) (VStr "https://api.openai.com/v1")) t
  = (Return (api_base env), t).
Proof. unfold api_base. destruct (OPENAI_API_BASE env) as [[|c r]|]; reflexivity. Qed.

Lemma api_key_run (env : environment) (t : trace) :
  truthy (env_value (OPENAI_API_KEY env)) = true ->
  js_String (env_value (OPENAI_API_KEY env)) t = (Return (api_key env), t).
Proof. unfold api_key. destruct (OPENAI_API_KEY env); [reflexivity | discriminate]. Qed.

(** ** recordEvent *)

Lemma recordEvent_run (env : environment) (w : world) (r : row) (t : trace) :
  Analytics.recordEvent env w r t =
    if Analytics.pool env then
      if query_resolves w then (Return tt, t ++ [Insert (insert_params r)])
      else (Throw QueryFailed, t)
    else (Return tt, t ++ [LogEvent r]).
Proof.
  unfold Analytics.recordEvent.
  destruct (Analytics.pool env); [destruct (query_resolves w)|]; reflexivity.
Qed.

(** Recording as the last step of a [try] block. *)
Lemma record_then_run (env : environment) (w : world) (msg : string)
    (r : row) (resp : response) (t : trace) :
  try_catch (Analytics.recordEvent env w r ;; ret resp)
            (fun err t' => (Json 500 (error_body msg), t' ++ [LogError msg err])) t
  = record_then env w msg r resp t.
Proof.
  unfold try_catch, bind, record_then. rewrite recordEvent_run.
  destruct (Analytics.pool env); [destruct (query_resolves w)|]; reflexivity.
Qed.

(** ** The handlers, step by step *)

Lemma try_bind_return {A} (c : M A) (k : A -> M response) (h : error -> handler)
    (t t' : trace) (a : A) :
  c t = (Return a, t') -> try_catch (bind c k) h t = try_catch (k a) h t'.
Proof. intros H. unfold try_catch, bind. now rewrite H. Qed.

Lemma try_bind_throw {A} (c : M A) (k : A -> M response) (h : error -> handler)
    (t t' : trace) (e : error) :
  c t = (Throw e, t') -> try_catch (bind c k) h t = h e t'.
Proof. intros H. unfold try_catch, bind. now rewrite H. Qed.

Lemma coalesce_not_nullish (v : value) (s : string) : nullish (coalesce v (VStr s)) = false.
Proof. unfold coalesce. destruct (nullish v) eqn:E; [reflexivity | exact E]. Qed.

Lemma get_reply_length (data : value) (t : trace) :
  get (reply_of data) "length" t = (Return (prop (reply_of data) "length"), t).
Proof. unfold get, reply_of. now rewrite coalesce_not_nullish. Qed.

Ltac step H := rewrite (try_bind_return _ _ _ _ _ _ H); cbv beta.

Lemma analytics_chat_run (env : environment) (w : world) (req : request) (t : trace) :
  Analytics.api_chat env w req t =
    if negb (truthy (env_value (OPENAI_API_KEY env)))
    then (Json 500 (error_body "Missing OPENAI_API_KEY"), t)
    else
      match prepare (body req) with
      | None => (Json 500 (error_body "Proxy error"), t ++ [LogError "Proxy error" TypeError])
      | Some p =>
          let t1 := t ++ [chat_request env p] in
          match upstream w with
          | NoResponse =>
              (Json 500 (error_body "Proxy error"), t1 ++ [LogError "Proxy error" FetchFailed])
          | Response status text =>
              if negb (ok status) then
                record_then env w "Proxy error"
                  (Analytics.chat_event req "coach_chat_error" (error_payload status text))
                  (Json status (error_body text)) t1
              else
                match JSON_parse text with
                | None =>
                    (Json 500 (error_body "Proxy error"),
                     t1 ++ [LogError "Proxy error" SyntaxError])
                | Some data =>
                    record_then env w "Proxy error"
                      (Analytics.chat_event req "coach_chat" (chat_payload env p data))
                      (Json 200 (VObj [("reply", reply_of data)])) t1
                end
          end
      end.
Proof.
  unfold Analytics.api_chat.
  destruct (negb (truthy (env_value (OPENAI_API_KEY env)))) eqn:Hkey; [reflexivity|].
  apply negb_false_iff in Hkey.
  cbv zeta.
  step (get_body (body req) "model" t).
  step (get_body (body req) "temperature" t).
  step (get_body (body req) "system" t).
  step (get_body (body req) "messages" t).
  step (clean_run (default_to (prop (or_else (body req) (VObj [])) "messages") (VArr [])) t).
  unfold prepare, turns_of, supplied_temperature, supplied_model, field.
  pose proof (unshift_run (default_to (prop (or_else (body req) (VObj [])) "system") (VStr ""))
          (sanitized (default_to (prop (or_else (body req) (VObj [])) "messages") (VArr [])))
          t (sanitized_typed _)) as Hun.
  pose proof (with_system_typed
                (default_to (prop (or_else (body req) (VObj [])) "system") (VStr ""))
                (sanitized (default_to (prop (or_else (body req) (VObj [])) "messages") (VArr [])))) as Hty.
  destruct (with_system _ _) as [turns|];
    [|now rewrite (try_bind_throw _ _ _ _ _ _ Hun)].
  specialize (Hty turns (sanitized_typed _) eq_refl).
  step Hun.
  step (api_base_run env t).
  step (api_key_run env t Hkey).
  pose proof (completion_run (default_to (prop (or_else (body req) (VObj [])) "model") (VStr "gpt-4o-mini"))
                (default_to (prop (or_else (body req) (VObj [])) "temperature") (VNum 0.2%float))
                turns t) as Hco.
  pose proof (js_Number_run
                (default_to (prop (or_else (body req) (VObj [])) "temperature") (VNum 0.2%float)))
    as Hnum.
  destruct (to_number _) as [raw|];
    [|now rewrite (try_bind_throw _ _ _ _ _ _ Hco)].
  step Hco.
  unfold fetch.
  set (p := {| sent_model := _; raw_temperature := raw; sent_turns := turns |}).
  set (rq := Fetch _ _ _).
  change rq with (chat_request env p). clear rq.
  destruct (upstream w) as [|status text].
  - reflexivity.
  - rewrite (try_bind_return _ _ _ t (t ++ [chat_request env p]) (status, text))
      by reflexivity.
    cbv beta iota zeta.
    destruct (negb (ok status)).
    + apply record_then_run.
    + unfold parse_json. destruct (JSON_parse text) as [data|]; [|reflexivity].
      rewrite (try_bind_return _ _ _ _ _ data) by reflexivity. cbv beta zeta.
      fold (reply_of data).
      step (lastUser_run turns (t ++ [chat_request env p]) Hty).
      step (logChatContent_run env (t ++ [chat_request env p])).
      step (Hnum (t ++ [chat_request env p])).
      rewrite (try_bind_return _ _ _ _ _ (VNum (number_of_nat (length (last_user turns)))))
        by reflexivity. cbv beta.
      rewrite (try_bind_return _ _ _ _ _
                 (if content_logging env then VStr (slice 500 (last_user turns)) else VUndefined)
                 ) by (now destruct (content_logging env)).
      cbv beta.
      step (get_reply_length data (t ++ [chat_request env p])).
      apply record_then_run.
Qed.

(** The two files share the sanitizer and the upstream body word for
    word. *)
Lemma server_clean_same : Server.clean = Analytics.clean.
Proof. reflexivity. Qed.

Lemma server_unshift_same : Server.unshift_system = Analytics.unshift_system.
Proof. reflexivity. Qed.

Lemma server_completion_same : Server.completion = Analytics.completion.
Proof. reflexivity. Qed.

Lemma server_chat_run (env : environment) (w : world) (req : request) (t : trace) :
  Server.api_chat env w req t =
    if negb (truthy (env_value (OPENAI_API_KEY env)))
    then (Json 500 (error_body "Missing OPENAI_API_KEY"), t)
    else
      match prepare (body req) with
      | None => (Json 500 (error_body "Proxy error"), t ++ [ConsoleError "Proxy error:" TypeError])
      | Some p =>
          let t1 := t ++ [chat_request env p] in
          match upstream w with
          | NoResponse =>
              (Json 500 (error_body "Proxy error"),
               t1 ++ [ConsoleError "Proxy error:" FetchFailed])
          | Response status text =>
              if negb (ok status) then (Json status (error_body text), t1)
              else
                match JSON_parse text with
                | None =>
                    (Json 500 (error_body "Proxy error"),
                     t1 ++ [ConsoleError "Proxy error:" SyntaxError])
                | Some data => (Json 200 (VObj [("reply", reply_of data)]), t1)
                end
          end
      end.
Proof.
  unfold Server.api_chat.
  destruct (negb (truthy (env_value (OPENAI_API_KEY env)))) eqn:Hkey; [reflexivity|].
  apply negb_false_iff in Hkey.
  cbv zeta.
  step (get_body (body req) "model" t).
  step (get_body (body req) "temperature" t).
  step (get_body (body req) "system" t).
  step (get_body (body req) "messages" t).
  rewrite server_clean_same, server_unshift_same, server_completion_same.
  step (clean_run (default_to (prop (or_else (body req) (VObj [])) "messages") (VArr [])) t).
  unfold prepare, turns_of, supplied_temperature, supplied_model, field.
  pose proof (unshift_run (default_to (prop (or_else (body req) (VObj [])) "system") (VStr ""))
          (sanitized (default_to (prop (or_else (body req) (VObj [])) "messages") (VArr [])))
          t (sanitized_typed _)) as Hun.
  destruct (with_system _ _) as [turns|];
    [|now rewrite (try_bind_throw _ _ _ _ _ _ Hun)].
  step Hun.
  step (api_base_run env t).
  step (api_key_run env t Hkey).
  pose proof (completion_run (default_to (prop (or_else (body req) (VObj [])) "model") (VStr "gpt-4o-mini"))
                (default_to (prop (or_else (body req) (VObj [])) "temperature") (VNum 0.2%float))
                turns t) as Hco.
  destruct (to_number _) as [raw|];
    [|now rewrite (try_bind_throw _ _ _ _ _ _ Hco)].
  step Hco.
  unfold fetch.
  set (p := {| sent_model := _; raw_temperature := raw; sent_turns := turns |}).
  set (rq := Fetch _ _ _).
  change rq with (chat_request env p). clear rq.
  destruct (upstream w) as [|status text].
  - reflexivity.
  - rewrite (try_bind_return _ _ _ t (t ++ [chat_request env p]) (status, text))
      by reflexivity.
    cbv beta iota zeta.
    destruct (negb (ok status)); [reflexivity|].
    unfold parse_json. destruct (JSON_parse text) as [data|]; reflexivity.
Qed.

(** The sample rate is the number of a string: reading it never throws. *)
Lemma sample_run (env : environment) (t : trace) :
  exists sample,
    to_number (coalesce (env_value (ANALYTICS_SAMPLE env)) (VStr "1")) = Some sample
    /\ js_Number (coalesce (env_value (ANALYTICS_SAMPLE env)) (VStr "1")) t = (Return sample, t).
Proof.
  rewrite js_Number_run.
  destruct (ANALYTICS_SAMPLE env) as [s|].
  - exists (string_to_number s). split; reflexivity.
  - exists (string_to_number "1"). split; reflexivity.
Qed.

Lemma analytics_track_run (env : environment) (w : world) (req : request) (t : trace) :
  Analytics.api_track env w req t =
    match prop (or_else (body req) (VObj [])) "event" with
    | VStr name =>
        if is_empty name then (Json 400 (error_body "Missing or invalid 'event' field"), t)
        else if sampled_out env w then
          (Json 200 (VObj [("ok", VBool true); ("sampled", VBool false)]), t)
        else record_then env w "track failed" (track_row req name)
                         (Json 200 (VObj [("ok", VBool true)])) t
    | _ => (Json 400 (error_body "Missing or invalid 'event' field"), t)
    end.
Proof.
  unfold Analytics.api_track. cbv zeta.
  step (get_body (body req) "event" t).
  step (get_body (body req) "page" t).
  step (get_body (body req) "step" t).
  step (get_body (body req) "sectionId" t).
  step (get_body (body req) "sessionId" t).
  step (get_body (body req) "payload" t).
  destruct (prop (or_else (body req) (VObj [])) "event") as [| |b|x|name|items|props] eqn:E;
    try reflexivity.
  - simpl. now destruct (negb b).
  - simpl. now destruct (negb (negb _)).
  - simpl truthy. simpl typeof.
    change (eqb "string" "string") with true.
    destruct (is_empty name); [reflexivity|]. simpl orb. cbv iota.
    rewrite (try_bind_return _ _ _ t t (VStr (slice 64 name))) by reflexivity.
    cbv beta.
    destruct (sample_run env t) as (sample & Hs & Hrun).
    step Hrun. unfold sampled_out. rewrite Hs.
    destruct (_ && _)%bool; [reflexivity|].
    apply record_then_run.
Qed.

(* ================================================================== *)
(** * The documented behaviours, run *)
(* ================================================================== *)

Example number_of_text :
  map string_to_number ["abc"; ""; " 12 "; "1e3"; "0x1F"; ".5"; "1,2"]
  = [nan; 0; 12; 1000; 31; 0.5; nan]%float.
Proof. reflexivity. Qed.

Example text_of_number :
  map number_to_string [0.2; 1e21; 1e-7; 25; 0.000001; nan; neg_infinity]%float
  = ["0.2"; "1e+21"; "1e-7"; "25"; "0.000001"; "NaN"; "-Infinity"].
Proof. reflexivity. Qed.

Example number_of_values :
  map to_number [VNull; VBool true; VArr []; VArr [VStr " 5 "]; VObj [];
                 VArr [VNum 1%float; VNum 2%float]; VObj [("valueOf", VNum 1%float)]]
  = map Some [0; 1; 0; 5; nan; nan; nan]%float.
Proof. reflexivity. Qed.

(** An own [toString] that is no function leaves [String] and [Number]
    without a primitive, also inside an array. *)
Example no_primitive :
  map to_string [unprintable; VArr [VNum 1%float; unprintable]; VArr [VArr [unprintable]]]
  = [None; None; None]
  /\ map to_number [unprintable; VArr [unprintable]] = [None; None]
  /\ map to_string [VObj [("valueOf", VNum 1%float)]; VArr [VNull; VStr "a"; VArr [VNum 2%float]]]
     = [Some "[object Object]"; Some ",a,2"].
Proof. repeat split. Qed.

Example parse_completion :
  JSON_parse hi_there
  = Some (VObj [("choices", VArr [VObj [("message", VObj [("content", VStr "Hi there")])]])]).
Proof. reflexivity. Qed.

(** An escape above U+00FF is one code unit of the string. *)
Example parse_escaped :
  JSON_parse its_escaped
  = Some (VObj [("choices",
                 VArr [VObj [("message", VObj [("content", VStr ("It" ++ [8217] ++ "s"))])]])]).
Proof. reflexivity. Qed.

(** A number too large for a binary64 reads as Infinity, and white space
    around the text of a number is any ECMAScript white space. *)
Example number_edges :
  JSON_parse "1e999" = Some (VNum infinity)
  /\ JSON_parse "-0" = Some (VNum (-0)%float)
  /\ string_to_number ([12288; 65279] ++ "7" ++ [8232]) = 7%float
  /\ to_string (VNum (-0)%float) = Some "0".
Proof. repeat split. Qed.

Example parse_rejects :
  map JSON_parse ["rate limited"; "OK"; ""; "[1,]"; "01"; "1."; "+1"; "[1 2]"; "nul"]
  = [None; None; None; None; None; None; None; None; None].
Proof. reflexivity. Qed.

(** Integer-like keys come first, in ascending order; a repeated key
    keeps its place and takes the last value. *)
Example parse_key_order :
  JSON_parse ("{" ++ quoted "b" ++ ":1," ++ quoted "2" ++ ":2," ++ quoted "a" ++ ":3,"
                  ++ quoted "1" ++ ":4," ++ quoted "b" ++ ":5," ++ quoted "01" ++ ":6}")
  = Some (VObj [ ("1", VNum 4%float); ("2", VNum 2%float); ("b", VNum 5%float);
                 ("a", VNum 3%float); ("01", VNum 6%float) ]).
Proof. reflexivity. Qed.

(** [messages] that is not an array: absent, null, a string, an object. *)
Example not_an_array :
  map sanitized [VUndefined; VNull; VStr "hello"; VObj [("role", VStr "user")]] = [[]; []; []; []].
Proof. reflexivity. Qed.

(** Malformed elements go, their well-formed siblings stay in order. *)
Example malformed_dropped :
  sanitized (VArr [ user_turn "one";
                    VObj [("content", VStr "no role")];
                    VNull;
                    VObj [("role", VStr "user"); ("content", VNum 3%float)];
                    VStr "text";
                    VObj [("role", VStr "assistant"); ("content", VStr "two"); ("extra", VBool true)] ])
  = [ user_turn "one"; VObj [("role", VStr "assistant"); ("content", VStr "two")] ].
Proof. reflexivity. Qed.

Example system_not_duplicated :
  turns_of (VObj [ ("system", VStr "You are a coach");
                   ("messages", VArr [VObj [("role", VStr "system"); ("content", VStr "X")]]) ])
  = Some [VObj [("role", VStr "system"); ("content", VStr "X")]].
Proof. reflexivity. Qed.

Example system_goes_first :
  turns_of (VObj [ ("system", VStr "You are a coach"); ("messages", VArr [user_turn "hello"]) ])
  = Some [VObj [("role", VStr "system"); ("content", VStr "You are a coach")]; user_turn "hello"].
Proof. reflexivity. Qed.

Example track_empty_body :
  Analytics.api_track log_only (answers 200 "" true)
    {| body := VObj []; headers := []; remoteAddress := None |} []
  = (Json 400 (error_body "Missing or invalid 'event' field"), []).
Proof. reflexivity. Qed.

Example track_click_logged :
  Analytics.api_track log_only (answers 200 "" true) track_click []
  = (Json 200 (VObj [("ok", VBool true)]),
     [LogEvent {| session_id := VNull; user_agent := VStr "curl/8"; ip := VStr "127.0.0.1";
                  page := VNull; step := VNull; section_id := VNull;
                  event_name := VStr "click"; payload := VNull |}]).
Proof. reflexivity. Qed.

(** A step that is no integer is bound to the INSERT as it is. *)
Example track_half_step_inserted :
  Analytics.api_track persisted (answers 200 "" true) track_half_step []
  = (Json 200 (VObj [("ok", VBool true)]),
     [Insert {| session_id := VNull; user_agent := VStr "curl/8"; ip := VStr "127.0.0.1";
                page := VNull; step := VNum 1.5%float; section_id := VNull;
                event_name := VStr "click"; payload := VNull |}]).
Proof. reflexivity. Qed.

Example chat_without_key :
  Analytics.api_chat
    {| OPENAI_API_KEY := None; OPENAI_API_BASE := None; DATABASE_URL := None;
       ANALYTICS_SAMPLE := None; ANALYTICS_LOG_CHAT_CONTENT := None |}
    (answers 200 hi_there true) chat_abc []
  = (Json 500 (error_body "Missing OPENAI_API_KEY"), []).
Proof. reflexivity. Qed.

Example chat_rate_limited :
  let run := Analytics.api_chat log_only (answers 429 "rate limited" true) chat_abc [] in
  fst run = Json 429 (error_body "rate limited")
  /\ map event_name (recorded (snd run)) = [VStr "coach_chat_error"].
Proof. split; reflexivity. Qed.

Example chat_hi_there :
  let run := Analytics.api_chat log_only (answers 200 hi_there true) chat_abc [] in
  fst run = Json 200 (VObj [("reply", VStr "Hi there")])
  /\ map event_name (recorded (snd run)) = [VStr "coach_chat"]
  /\ map (fun r => prop (payload r) "reply_len") (recorded (snd run)) = [VNum 8%float].
Proof. repeat split. Qed.

Example chat_its_escaped :
  fst (Analytics.api_chat log_only (answers 200 its_escaped true) chat_abc [])
  = Json 200 (VObj [("reply", VStr ("It" ++ [8217] ++ "s"))])
  /\ fst (Server.api_chat log_only (answers 200 its_escaped true) chat_abc [])
     = Json 200 (VObj [("reply", VStr ("It" ++ [8217] ++ "s"))]).
Proof. split; reflexivity. Qed.

(** A [system] or a [temperature] that converts to no primitive: the
    handlers throw before the upstream call, answer 500 and only log. *)
Example chat_no_primitive :
  Analytics.api_chat log_only (answers 200 hi_there true) chat_bad_system []
  = (Json 500 (error_body "Proxy error"), [LogError "Proxy error" TypeError])
  /\ Analytics.api_chat log_only (answers 200 hi_there true) chat_bad_temperature []
     = (Json 500 (error_body "Proxy error"), [LogError "Proxy error" TypeError])
  /\ Server.api_chat log_only (answers 200 hi_there true) chat_bad_system []
     = (Json 500 (error_body "Proxy error"), [ConsoleError "Proxy error:" TypeError])
  /\ Server.api_chat log_only (answers 200 hi_there true) chat_bad_temperature []
     = (Json 500 (error_body "Proxy error"), [ConsoleError "Proxy error:" TypeError]).
Proof. repeat split. Qed.

Example temperature_abc :
  sent (snd (Server.api_chat log_only (answers 200 hi_there true) chat_abc []))
  = [Some ("{" ++ quoted "model" ++ ":" ++ quoted "gpt-4o-mini" ++ ","
               ++ quoted "temperature" ++ ":0.2,"
               ++ quoted "messages" ++ ":[{" ++ quoted "role" ++ ":" ++ quoted "user" ++ ","
               ++ quoted "content" ++ ":" ++ quoted "hello" ++ "}]}")].
Proof. reflexivity. Qed.

Example stringify_values :
  map JSON_stringify
      [ VUndefined; VNum infinity; VNum nan; VNum (-0)%float; VNum 1.5%float;
        VArr [VUndefined; VNull; VStr "a"];
        VObj [("a", VUndefined); ("b", VBool true); ("c", VObj [])];
        VStr [8217; 55357; 56832; 56832; 7] ]
  = [ None; Some "null"; Some "null"; Some "0"; Some "1.5";
      Some ("[null,null," ++ quoted "a" ++ "]");
      Some ("{" ++ quoted "b" ++ ":true," ++ quoted "c" ++ ":{}}");
      Some (quoted ([8217; 55357; 56832; backslash] ++ "ude00" ++ [backslash] ++ "u0007")) ].
Proof. reflexivity. Qed.

Example evil_origin_refused :
  Analytics.app log_only (answers 200 hi_there true) Analytics.POST_chat
    {| body := body chat_abc; headers := [("origin", "https://evil.example")];
       remoteAddress := None |} []
  = (Refused "Not allowed by CORS", []).
Proof. reflexivity. Qed.

Example no_origin_allowed :
  Analytics.origin (header chat_abc "origin") = Allow
  /\ fst (Analytics.app log_only (answers 200 hi_there true) Analytics.POST_chat chat_abc [])
     = Json 200 (VObj [("reply", VStr "Hi there")]).
Proof. split; reflexivity. Qed.

(* ================================================================== *)
(** * The Message Sanitizer *)
(* ================================================================== *)

(** C2. For every value supplied as [messages] the sanitizer returns and
    does nothing else: it never throws. A value that is not an array gives
    the empty sequence; of an array exactly the objects with a string
    [role] and a string [content] survive, each as the turn of its role
    and content, in their original order; every surviving turn is well
    typed. Both source files agree. *)
Theorem sanitizer_total (messages : value) (t : trace) :
  Analytics.clean messages t = (Return (sanitized messages), t)
  /\ Server.clean messages t = (Return (sanitized messages), t)
  /\ (is_array messages = false -> sanitized messages = [])
  /\ (forall items, messages = VArr items ->
        sanitized messages = map as_turn (filter is_turn items))
  /\ Forall well_typed (sanitized messages).
Proof.
  split; [apply clean_run|].
  split; [rewrite server_clean_same; apply clean_run|].
  split; [now destruct messages|].
  split; [now intros items ->|].
  apply sanitized_typed.
Qed.

(** The sanitizer followed by the conditional unshift. *)
Lemma clean_unshift_run (system messages : value) (t : trace) :
  (turns <- Analytics.clean messages ;; Analytics.unshift_system system turns) t
  = match with_system system (sanitized messages) with
    | Some out => (Return out, t)
    | None => (Throw TypeError, t)
    end.
Proof.
  rewrite (bind_return _ _ _ _ _ (clean_run messages t)).
  apply unshift_run, sanitized_typed.
Qed.

(** C3 as stated fails. A [system] that is no string does not become the
    content of the turn: the number 5 gives the content ["5"]; and for
    the object [{toString: 1}], which is not empty and meets no system
    turn, [String(system)] throws: no turn is put in front, no sequence is
    produced, and /api/chat answers 500 without calling the upstream. *)
Lemma system_not_a_string :
  (turns <- Analytics.clean (VArr []) ;; Analytics.unshift_system (VNum 5%float) turns) []
  = (Return [VObj [("role", VStr "system"); ("content", VStr "5")]], [])
  /\ VObj [("role", VStr "system"); ("content", VStr "5")]
     <> VObj [("role", VStr "system"); ("content", VNum 5%float)]
  /\ truthy unprintable = true
  /\ (turns <- Analytics.clean (VArr []) ;; Analytics.unshift_system unprintable turns) []
     = (Throw TypeError, [])
  /\ Analytics.api_chat log_only (answers 200 hi_there true) chat_bad_system []
     = (Json 500 (error_body "Proxy error"), [LogError "Proxy error" TypeError]).
Proof.
  split; [reflexivity|]. split; [discriminate|]. repeat split.
Qed.

(** C3, amended. For every request body, in both servers: when [system]
    is truthy and no sanitized turn has role [system], the statement
    evaluates [String(system)] and either puts [{role: "system", content:
    String(system)}] in front of the sanitized sequence or, when that
    conversion throws, throws its TypeError and produces no sequence;
    otherwise the sanitized sequence is left as it is, every turn of it
    unmodified. For a [system] that is a string (or absent: the default is
    the empty string) this is the claim: the turn [{role: "system",
    content: system}] goes in front exactly when [system] is not empty and
    no sanitized turn has role [system]. *)
Theorem system_turn_first_wins (body : value) (t : trace) :
  let system := field body "system" (VStr "") in
  let messages := field body "messages" (VArr []) in
  let kept := sanitized messages in
  let run := (turns <- Analytics.clean messages ;; Analytics.unshift_system system turns) t in
  (turns <- Server.clean messages ;; Server.unshift_system system turns) t = run
  /\ (if truthy system && negb (existsb (role_is "system") kept)
      then match to_string system with
           | Some text =>
               run = (Return (VObj [("role", VStr "system"); ("content", VStr text)] :: kept), t)
           | None => run = (Throw TypeError, t)
           end
      else run = (Return kept, t))
  /\ (forall s, system = VStr s ->
        run = (Return (if negb (is_empty s) && negb (existsb (role_is "system") kept)
                       then VObj [("role", VStr "system"); ("content", system)] :: kept
                       else kept), t)).
Proof.
  cbv zeta. split; [reflexivity|].
  rewrite clean_unshift_run. unfold with_system, needs_system.
  split.
  - destruct (_ && _)%bool; [|reflexivity]. now destruct (to_string _).
  - intros s ->. simpl truthy. now destruct (_ && _)%bool.
Qed.

(* ================================================================== *)
(** * The Chat Relay *)
(* ================================================================== *)

Lemma sent_app (t u : trace) : sent (t ++ u) = sent t ++ sent u.
Proof. apply flat_map_app. Qed.

Lemma recorded_app (t u : trace) : recorded (t ++ u) = recorded t ++ recorded u.
Proof. apply flat_map_app. Qed.

(** Recording sends nothing to the upstream. *)
Lemma record_then_sent (env : environment) (w : world) (msg : string)
    (r : row) (resp : response) (t : trace) :
  sent (snd (record_then env w msg r resp t)) = sent t.
Proof.
  unfold record_then.
  destruct (Analytics.pool env); [destruct (query_resolves w)|];
    simpl; rewrite sent_app; simpl; apply app_nil_r.
Qed.

(** When the record operation succeeds, the response is the one that
    follows it and one event is added, with the name and the payload of
    the row. *)
Lemma record_then_succeeds (env : environment) (w : world) (msg : string)
    (r : row) (resp : response) (t : trace) :
  record_succeeds env w = true ->
  truthy (payload r) = true ->
  fst (record_then env w msg r resp t) = resp
  /\ exists r', recorded (snd (record_then env w msg r resp t)) = recorded t ++ [r']
                /\ event_name r' = event_name r
                /\ payload r' = payload r.
Proof.
  unfold record_succeeds, record_then. intros H Hp.
  destruct (Analytics.pool env).
  - simpl in H. rewrite H. split; [reflexivity|].
    exists (insert_params r). simpl. rewrite recorded_app.
    repeat split. unfold or_else. now rewrite Hp.
  - split; [reflexivity|]. exists r. simpl. rewrite recorded_app. auto.
Qed.

Lemma effective_not_nan (x : number) : isNaN (effective x) = false.
Proof. unfold effective. destruct (isNaN x) eqn:E; [reflexivity | exact E]. Qed.

Lemma analytics_chat_sent (env : environment) (w : world) (req : request) (t : trace) :
  sent (snd (Analytics.api_chat env w req t)) = sent t ++ requests env (body req).
Proof.
  rewrite analytics_chat_run. unfold requests.
  destruct (truthy (env_value (OPENAI_API_KEY env))); simpl negb; cbv iota zeta.
  2: { simpl. now rewrite app_nil_r. }
  destruct (prepare (body req)) as [p|].
  2: { simpl snd. rewrite sent_app. reflexivity. }
  destruct (upstream w) as [|status text];
    [|destruct (negb (ok status)); [|destruct (JSON_parse text) as [data|]]];
    rewrite ?record_then_sent; simpl snd; rewrite ?sent_app; simpl;
    rewrite ?app_nil_r; reflexivity.
Qed.

Lemma server_chat_sent (env : environment) (w : world) (req : request) (t : trace) :
  sent (snd (Server.api_chat env w req t)) = sent t ++ requests env (body req).
Proof.
  rewrite server_chat_run. unfold requests.
  destruct (truthy (env_value (OPENAI_API_KEY env))); simpl negb; cbv iota zeta.
  2: { simpl. now rewrite app_nil_r. }
  destruct (prepare (body req)) as [p|].
  2: { simpl snd. rewrite sent_app. reflexivity. }
  destruct (upstream w) as [|status text];
    [|destruct (negb (ok status)); [|destruct (JSON_parse text) as [data|]]];
    simpl snd; rewrite ?sent_app; simpl; rewrite ?app_nil_r; reflexivity.
Qed.

Lemma stringify_defined (v : value) :
  v <> VUndefined -> exists text, JSON_stringify v = Some text.
Proof. destruct v; intros H; [now destruct H | simpl; eauto ..]. Qed.

Lemma default_defined (v d : value) : d <> VUndefined -> default_to v d <> VUndefined.
Proof. destruct v; simpl; intros H; (exact H || discriminate). Qed.

Lemma stringify_three (k1 k2 k3 : string) (v1 v2 v3 : value) (t1 t2 t3 : string) :
  JSON_stringify v1 = Some t1 ->
  JSON_stringify v2 = Some t2 ->
  JSON_stringify v3 = Some t3 ->
  JSON_stringify (VObj [(k1, v1); (k2, v2); (k3, v3)])
  = Some ("{" ++ join_commas [member k1 t1; member k2 t2; member k3 t3] ++ "}").
Proof.
  intros H1 H2 H3. cbn [JSON_stringify]. now rewrite H1, H2, H3.
Qed.

Lemma stringify_effective (x : number) :
  JSON_stringify (VNum (effective x))
  = Some (if isNaN x then "0.2" else if is_finite x then number_to_string x else "null").
Proof. unfold effective. now destruct (isNaN x). Qed.

(** The text of the upstream body: three members, the temperature
    printed as a number when it is finite and as [null] otherwise. *)
Lemma completion_text (p : upstream_input) :
  sent_model p <> VUndefined ->
  exists model_text messages_text,
    JSON_stringify (upstream_object p)
    = Some ("{" ++ join_commas
                     [ member "model" model_text;
                       member "temperature"
                         (if isNaN (raw_temperature p) then "0.2"
                          else if is_finite (raw_temperature p)
                               then number_to_string (raw_temperature p)
                               else "null");
                       member "messages" messages_text ] ++ "}").
Proof.
  intros Hm. destruct (stringify_defined (sent_model p) Hm) as (mt & Hmt).
  destruct (stringify_defined (VArr (sent_turns p))) as (ms & Hms); [discriminate|].
  exists mt, ms.
  exact (stringify_three _ _ _ _ _ _ _ _ _ Hmt (stringify_effective _) Hms).
Qed.

(** What [prepare] holds when it returns. *)
Lemma prepare_some (body : value) (p : upstream_input) :
  prepare body = Some p ->
  turns_of body = Some (sent_turns p)
  /\ to_number (supplied_temperature body) = Some (raw_temperature p)
  /\ sent_model p = supplied_model body.
Proof.
  unfold prepare.
  destruct (turns_of body) as [turns|]; [|discriminate].
  destruct (to_number (supplied_temperature body)) as [raw|]; [|discriminate].
  intros E. injection E as <-. repeat split.
Qed.

Lemma prepare_model (body : value) (p : upstream_input) :
  prepare body = Some p -> sent_model p <> VUndefined.
Proof.
  intros H. destruct (prepare_some body p H) as (_ & _ & ->).
  apply default_defined. discriminate.
Qed.

(** C4 as stated fails. A temperature that coerces to Infinity is not
    NaN, so no 0.2 stands in, and the JSON text sent has [null] for it.
    And a temperature such as [{toString: 1}] has no numeric coercion:
    [Number(temperature)] throws and no body is sent at all. *)
Lemma infinite_temperature_sent_null :
  let req := {| body := VObj [("temperature", VStr "Infinity")];
                headers := []; remoteAddress := None |} in
  to_number (supplied_temperature (body req)) = Some infinity
  /\ isNaN infinity = false
  /\ sent (snd (Analytics.api_chat log_only (answers 200 hi_there true) req []))
     = [Some ("{" ++ quoted "model" ++ ":" ++ quoted "gpt-4o-mini" ++ ","
                  ++ quoted "temperature" ++ ":null," ++ quoted "messages" ++ ":[]}")]
  /\ JSON_parse ("{" ++ quoted "model" ++ ":" ++ quoted "gpt-4o-mini" ++ ","
                     ++ quoted "temperature" ++ ":null," ++ quoted "messages" ++ ":[]}")
     = Some (VObj [("model", VStr "gpt-4o-mini"); ("temperature", VNull);
                   ("messages", VArr [])])
  /\ to_number (supplied_temperature (body chat_bad_temperature)) = None
  /\ sent (snd (Analytics.api_chat log_only (answers 200 hi_there true) chat_bad_temperature []))
     = [].
Proof. cbv zeta. repeat split. Qed.

(** C4, amended. For every request whose conversions return
    ([String(system)], when the system turn is put in front, and
    [Number(temperature)]): the object the handlers serialize as the
    upstream body has for [temperature] the number [Number(temperature)]
    of the supplied temperature (0.2 when absent), except that 0.2 stands
    in when that coercion is NaN; in the JSON text sent, the temperature
    member is that number when it is finite, 0.2 when the coercion is NaN,
    and [null] when the coercion is an infinity. It is never NaN, and for
    the input ["abc"] it is 0.2. Each handler sends this text once when the
    key is set and sends nothing otherwise. For a request one of whose
    conversions throws, nothing is sent and, the key being set, the answer
    is 500 [Proxy error]. *)
Theorem upstream_temperature (env : environment) (w : world) (req : request) (t : trace) :
  let supplied := supplied_temperature (body req) in
  let key_set := truthy (env_value (OPENAI_API_KEY env)) in
  match prepare (body req) with
  | Some p =>
      let raw := raw_temperature p in
      let object := upstream_object p in
      to_number supplied = Some raw
      /\ Analytics.completion (sent_model p) supplied (sent_turns p) t = (Return object, t)
      /\ Server.completion (sent_model p) supplied (sent_turns p) t = (Return object, t)
      /\ sent (snd (Analytics.api_chat env w req t))
         = sent t ++ (if key_set then [JSON_stringify object] else [])
      /\ sent (snd (Server.api_chat env w req t))
         = sent t ++ (if key_set then [JSON_stringify object] else [])
      /\ prop object "temperature" = VNum (if isNaN raw then 0.2 else raw)%float
      /\ isNaN (if isNaN raw then 0.2 else raw)%float = false
      /\ (exists model_text messages_text,
            JSON_stringify object
            = Some ("{" ++ join_commas
                             [ member "model" model_text;
                               member "temperature"
                                 (if isNaN raw then "0.2"
                                  else if is_finite raw then number_to_string raw else "null");
                               member "messages" messages_text ] ++ "}"))
      /\ (supplied = VStr "abc" -> prop object "temperature" = VNum 0.2%float)
  | None =>
      sent (snd (Analytics.api_chat env w req t)) = sent t
      /\ sent (snd (Server.api_chat env w req t)) = sent t
      /\ (key_set = true ->
          fst (Analytics.api_chat env w req t) = Json 500 (VObj [("error", VStr "Proxy error")])
          /\ fst (Server.api_chat env w req t) = Json 500 (VObj [("error", VStr "Proxy error")]))
  end.
Proof.
  cbv zeta.
  rewrite analytics_chat_sent, server_chat_sent. unfold requests.
  destruct (prepare (body req)) as [p|] eqn:Hp.
  - destruct (prepare_some _ _ Hp) as (_ & Hraw & _).
    split; [exact Hraw|].
    assert (Hco : Analytics.completion (sent_model p) (supplied_temperature (body req))
                    (sent_turns p) t = (Return (upstream_object p), t)).
    { rewrite completion_run, Hraw. reflexivity. }
    split; [exact Hco|]. split; [exact Hco|].
    split; [now destruct (truthy _)|]. split; [now destruct (truthy _)|].
    split; [reflexivity|].
    split; [apply effective_not_nan|].
    split; [apply completion_text, (prepare_model _ _ Hp)|].
    intros Habc. rewrite Habc in Hraw. injection Hraw as Hraw.
    change (prop (upstream_object p) "temperature") with (VNum (effective (raw_temperature p))).
    now rewrite <- Hraw.
  - split; [destruct (truthy _); apply app_nil_r|].
    split; [destruct (truthy _); apply app_nil_r|].
    intros Hkey. rewrite analytics_chat_run, server_chat_run, Hkey, Hp. split; reflexivity.
Qed.

(** C5 as stated fails. With a database configured whose INSERT rejects,
    an upstream 429 is answered with HTTP 500 and no event is recorded.
    And the upstream is not called at all, whatever it would answer, when
    the credential is missing or when a conversion throws: the answer is
    500 and no event is recorded. *)
Lemma upstream_error_insert_rejected :
  upstream (answers 429 "rate limited" false) = Response 429 "rate limited"
  /\ ok 429 = false
  /\ fst (Analytics.api_chat persisted (answers 429 "rate limited" false) chat_abc [])
     = Json 500 (error_body "Proxy error")
  /\ recorded (snd (Analytics.api_chat persisted (answers 429 "rate limited" false) chat_abc []))
     = []
  /\ Analytics.api_chat log_only (answers 429 "rate limited" true) chat_bad_system []
     = (Json 500 (error_body "Proxy error"), [LogError "Proxy error" TypeError])
  /\ Analytics.api_chat
       {| OPENAI_API_KEY := None; OPENAI_API_BASE := None; DATABASE_URL := None;
          ANALYTICS_SAMPLE := None; ANALYTICS_LOG_CHAT_CONTENT := None |}
       (answers 429 "rate limited" true) chat_abc []
     = (Json 500 (error_body "Missing OPENAI_API_KEY"), []).
Proof. repeat split. Qed.

(** C5, amended. For every /api/chat request that reaches the upstream
    (the credential is set, and [String(system)] and [Number(temperature)]
    do not throw), whose upstream response has a non-success status and
    whose record operation succeeds (no database is configured, or the
    INSERT resolves), the handler records exactly one event, named
    [coach_chat_error], with payload [{status, body: the first 512
    characters of the response text}], and answers with the upstream
    status and [{error: the whole text}]. *)
Theorem upstream_error_recorded (env : environment) (w : world) (req : request)
    (t : trace) (p : upstream_input) (status : Z) (text : string) :
  truthy (env_value (OPENAI_API_KEY env)) = true ->
  prepare (body req) = Some p ->
  upstream w = Response status text ->
  ok status = false ->
  record_succeeds env w = true ->
  fst (Analytics.api_chat env w req t) = Json status (VObj [("error", VStr text)])
  /\ exists r,
       recorded (snd (Analytics.api_chat env w req t)) = recorded t ++ [r]
       /\ event_name r = VStr "coach_chat_error"
       /\ payload r = VObj [("status", VNum (number_of_Z status));
                            ("body", VStr (slice 512 text))].
Proof.
  intros Hkey Hp Hup Hok Hrec.
  rewrite analytics_chat_run, Hkey, Hp, Hup, Hok. simpl negb. cbv iota zeta.
  destruct (record_then_succeeds env w "Proxy error"
              (Analytics.chat_event req "coach_chat_error" (error_payload status text))
              (Json status (error_body text))
              (t ++ [chat_request env p]) Hrec eq_refl)
    as (Hresp & r & Hr & Hname & Hpay).
  split; [exact Hresp|].
  exists r. rewrite Hr, recorded_app. simpl. rewrite app_nil_r. auto.
Qed.

Lemma upstream_error_recorded_witness :
  fst (Analytics.api_chat log_only (answers 429 "rate limited" true) chat_abc [])
  = Json 429 (VObj [("error", VStr "rate limited")])
  /\ exists r,
       recorded (snd (Analytics.api_chat log_only (answers 429 "rate limited" true) chat_abc []))
       = recorded [] ++ [r]
       /\ event_name r = VStr "coach_chat_error"
       /\ payload r = VObj [("status", VNum (number_of_Z 429));
                            ("body", VStr (slice 512 "rate limited"))].
Proof.
  apply (upstream_error_recorded log_only (answers 429 "rate limited" true) chat_abc []
           abc_input 429 "rate limited"); reflexivity.
Defined.

Lemma content_logging_spec (env : environment) :
  content_logging env = true <-> ANALYTICS_LOG_CHAT_CONTENT env = Some "true".
Proof.
  unfold content_logging.
  destruct (ANALYTICS_LOG_CHAT_CONTENT env) as [s|].
  - rewrite string_eqb_eq. split; [now intros -> | intros H; now injection H].
  - split; discriminate.
Qed.

(** C6 as stated fails. An upstream 200 whose body is not JSON is
    answered with HTTP 500 and no event is recorded; so is an upstream 200
    with a JSON body when the INSERT of the event rejects; and when a
    conversion throws, or the credential is missing, the upstream is not
    called, whatever it would answer. *)
Lemma chat_success_not_json :
  upstream (answers 200 "OK" true) = Response 200 "OK"
  /\ ok 200 = true
  /\ fst (Analytics.api_chat log_only (answers 200 "OK" true) chat_abc [])
     = Json 500 (error_body "Proxy error")
  /\ recorded (snd (Analytics.api_chat log_only (answers 200 "OK" true) chat_abc [])) = []
  /\ fst (Analytics.api_chat persisted (answers 200 hi_there false) chat_abc [])
     = Json 500 (error_body "Proxy error")
  /\ recorded (snd (Analytics.api_chat persisted (answers 200 hi_there false) chat_abc [])) = []
  /\ Analytics.api_chat log_only (answers 200 hi_there true) chat_bad_temperature []
     = (Json 500 (error_body "Proxy error"), [LogError "Proxy error" TypeError])
  /\ Analytics.api_chat
       {| OPENAI_API_KEY := None; OPENAI_API_BASE := None; DATABASE_URL := None;
          ANALYTICS_SAMPLE := None; ANALYTICS_LOG_CHAT_CONTENT := None |}
       (answers 200 hi_there true) chat_abc []
     = (Json 500 (error_body "Missing OPENAI_API_KEY"), []).
Proof. repeat split. Qed.

(** C6, amended. For every /api/chat request that reaches the upstream
    (the credential is set, and [String(system)] and [Number(temperature)]
    do not throw), whose upstream response is successful, whose body
    parses as JSON and whose record operation succeeds, [reply] is
    [choices[0].message.content] of the parsed body with the empty string
    in place of undefined or null at any level; [lastUser] is the content
    of the last sent turn of role [user], the empty string when there is
    none; exactly one event is recorded, named [coach_chat], whose
    [prompt_len] is the length of [lastUser], whose [reply_len] is
    [reply.length] (the length of a string reply), and whose
    [prompt_sample] is the first 500 characters of [lastUser] when the
    content-logging toggle is on (the variable is exactly [true]) and
    undefined otherwise; the answer is 200 [{reply}]. *)
Theorem chat_success_recorded (env : environment) (w : world) (req : request)
    (t : trace) (p : upstream_input) (status : Z) (text : string) (data : value) :
  truthy (env_value (OPENAI_API_KEY env)) = true ->
  prepare (body req) = Some p ->
  upstream w = Response status text ->
  ok status = true ->
  JSON_parse text = Some data ->
  record_succeeds env w = true ->
  let reply :=
    coalesce (opt_prop (opt_prop (opt_first (opt_prop data "choices")) "message") "content")
             (VStr "") in
  let last := last_user (sent_turns p) in
  let logging := content_logging env in
  fst (Analytics.api_chat env w req t) = Json 200 (VObj [("reply", reply)])
  /\ (exists r,
        recorded (snd (Analytics.api_chat env w req t)) = recorded t ++ [r]
        /\ event_name r = VStr "coach_chat"
        /\ prop (payload r) "prompt_len" = VNum (number_of_nat (length last))
        /\ prop (payload r) "reply_len" = prop reply "length"
        /\ prop (payload r) "prompt_sample"
           = if logging then VStr (slice 500 last) else VUndefined)
  /\ (forall s, reply = VStr s -> prop reply "length" = VNum (number_of_nat (length s)))
  /\ (forall u, Analytics.lastUser (sent_turns p) u = (Return (VStr last), u))
  /\ (forall u, Analytics.logChatContent env u = (Return logging, u))
  /\ (logging = true <-> ANALYTICS_LOG_CHAT_CONTENT env = Some "true").
Proof.
  intros Hkey Hp Hup Hok Hjson Hrec. cbv zeta.
  rewrite analytics_chat_run, Hkey, Hp, Hup, Hok, Hjson. simpl negb. cbv iota zeta.
  destruct (record_then_succeeds env w "Proxy error"
              (Analytics.chat_event req "coach_chat" (chat_payload env p data))
              (Json 200 (VObj [("reply", reply_of data)]))
              (t ++ [chat_request env p]) Hrec eq_refl)
    as (Hresp & r & Hr & Hname & Hpay).
  split; [exact Hresp|].
  split.
  { exists r. rewrite Hr, recorded_app. simpl. rewrite app_nil_r.
    split; [reflexivity|]. split; [exact Hname|].
    rewrite Hpay. repeat split. }
  split; [now intros s ->|].
  split.
  { intros u. apply lastUser_run.
    destruct (prepare_some _ _ Hp) as (Ht & _). exact (turns_of_typed _ _ Ht). }
  split; [intros u; apply logChatContent_run | apply content_logging_spec].
Qed.

Lemma chat_success_recorded_witness :
  fst (Analytics.api_chat log_only (answers 200 hi_there true) chat_abc [])
  = Json 200 (VObj [("reply", VStr "Hi there")])
  /\ (exists r,
        recorded (snd (Analytics.api_chat log_only (answers 200 hi_there true) chat_abc []))
        = recorded [] ++ [r]
        /\ event_name r = VStr "coach_chat"
        /\ prop (payload r) "prompt_len" = VNum (number_of_nat (length "hello"))
        /\ prop (payload r) "reply_len" = prop (VStr "Hi there") "length"
        /\ prop (payload r) "prompt_sample" = VUndefined)
  /\ (forall s, VStr "Hi there" = VStr s ->
        prop (VStr "Hi there") "length" = VNum (number_of_nat (length s)))
  /\ (forall u, Analytics.lastUser [user_turn "hello"] u = (Return (VStr "hello"), u))
  /\ (forall u, Analytics.logChatContent log_only u = (Return false, u))
  /\ (false = true <-> ANALYTICS_LOG_CHAT_CONTENT log_only = Some "true").
Proof.
  apply (chat_success_recorded log_only (answers 200 hi_there true) chat_abc [] abc_input
           200 hi_there
           (VObj [("choices", VArr [VObj [("message", VObj [("content", VStr "Hi there")])]])]));
    reflexivity.
Defined.

Lemma record_then_recorded (env : environment) (w : world) (msg : string)
    (r : row) (resp : response) (t : trace) :
  recorded (snd (record_then env w msg r resp t))
  = recorded t ++ (if Analytics.pool env
                   then if query_resolves w then [insert_params r] else []
                   else [r]).
Proof.
  unfold record_then.
  destruct (Analytics.pool env); [destruct (query_resolves w)|];
    simpl; rewrite recorded_app; reflexivity.
Qed.

(** The rows a recording adds carry the name of the row, and its payload
    when that is an object. *)
Lemma record_then_rows (env : environment) (w : world) (msg : string)
    (r r' : row) (resp : response) (t : trace) :
  recorded t = [] ->
  truthy (payload r) = true ->
  In r' (recorded (snd (record_then env w msg r resp t))) ->
  event_name r' = event_name r /\ payload r' = payload r.
Proof.
  intros Ht Hp. rewrite record_then_recorded, Ht. simpl.
  destruct (Analytics.pool env); [destruct (query_resolves w)|]; simpl.
  - intros [<-|[]]. simpl. unfold or_else. now rewrite Hp.
  - intros [].
  - intros [<-|[]]. auto.
Qed.

(** A row recorded by /api/chat: on the error path the error event, on
    the success path the chat event of the prepared input. *)
Lemma chat_rows (env : environment) (w : world) (req : request) (r : row) :
  In r (recorded (snd (Analytics.api_chat env w req []))) ->
  truthy (env_value (OPENAI_API_KEY env)) = true
  /\ exists p status text,
       prepare (body req) = Some p
       /\ upstream w = Response status text
       /\ ((ok status = false
            /\ event_name r = VStr "coach_chat_error"
            /\ payload r = error_payload status text)
           \/ (ok status = true
               /\ exists data,
                    JSON_parse text = Some data
                    /\ event_name r = VStr "coach_chat"
                    /\ payload r = chat_payload env p data)).
Proof.
  rewrite analytics_chat_run.
  destruct (truthy (env_value (OPENAI_API_KEY env))); simpl negb; cbv iota zeta;
    [|intros []].
  destruct (prepare (body req)) as [p|]; [|intros []].
  destruct (upstream w) as [|status text]; [intros []|].
  destruct (ok status) eqn:Hok; simpl negb; cbv iota.
  - destruct (JSON_parse text) as [data|] eqn:Hj; [|intros []].
    intros Hin. apply record_then_rows in Hin; [|reflexivity|reflexivity].
    destruct Hin as [Hn Hp]. split; [reflexivity|].
    exists p, status, text. repeat split. right. split; [exact Hok|].
    exists data. auto.
  - intros Hin. apply record_then_rows in Hin; [|reflexivity|reflexivity].
    destruct Hin as [Hn Hp]. split; [reflexivity|].
    exists p, status, text. repeat split. left. auto.
Qed.

(** C9. On the success path of /api/chat the [temperature] of the
    [coach_chat] payload is [Number(temperature)] itself, without the NaN
    fallback: when the supplied temperature coerces to NaN, the payload
    holds NaN while the body sent to the upstream holds 0.2. *)
Theorem recorded_temperature_raw (env : environment) (w : world) (req : request) (r : row) :
  In r (recorded (snd (Analytics.api_chat env w req []))) ->
  event_name r = VStr "coach_chat" ->
  exists raw,
    to_number (supplied_temperature (body req)) = Some raw
    /\ prop (payload r) "temperature" = VNum raw
    /\ (isNaN raw = true ->
        exists model_text messages_text,
          sent (snd (Analytics.api_chat env w req []))
          = [Some ("{" ++ join_commas
                            [ member "model" model_text;
                              member "temperature" "0.2";
                              member "messages" messages_text ] ++ "}")]).
Proof.
  intros Hin Hname.
  pose proof (analytics_chat_sent env w req []) as Hsent.
  destruct (chat_rows env w req r Hin) as (Hkey & p & status & text & Hp & _ & Hrow).
  destruct (prepare_some _ _ Hp) as (_ & Hraw & _).
  exists (raw_temperature p). split; [exact Hraw|]. split.
  - destruct Hrow as [(_ & Hn & _) | (_ & data & _ & _ & ->)]; [|reflexivity].
    rewrite Hname in Hn. discriminate.
  - intros Hnan.
    destruct (completion_text p (prepare_model _ _ Hp)) as (mt & ms & Htext).
    rewrite Hnan in Htext.
    exists mt, ms. rewrite Hsent. unfold requests. now rewrite Hkey, Hp, Htext.
Qed.

Lemma recorded_temperature_raw_witness :
  let r := Analytics.chat_event chat_abc "coach_chat"
             (chat_payload log_only abc_input
                (VObj [("choices", VArr [VObj [("message", VObj [("content", VStr "Hi there")])]])])) in
  exists raw,
    to_number (VStr "abc") = Some raw
    /\ prop (payload r) "temperature" = VNum raw
    /\ (isNaN raw = true ->
        exists model_text messages_text,
          sent (snd (Analytics.api_chat log_only (answers 200 hi_there true) chat_abc []))
          = [Some ("{" ++ join_commas
                            [ member "model" model_text;
                              member "temperature" "0.2";
                              member "messages" messages_text ] ++ "}")]).
Proof.
  apply (recorded_temperature_raw log_only (answers 200 hi_there true) chat_abc).
  - left. reflexivity.
  - reflexivity.
Defined.

(** C10 as stated fails: with a database whose INSERT rejects, the same
    successful upstream response is answered 200 by src/server.js and 500
    by the server with analytics. *)
Lemma chat_handlers_differ :
  fst (Server.api_chat persisted (answers 200 hi_there false) chat_abc [])
  = Json 200 (VObj [("reply", VStr "Hi there")])
  /\ fst (Analytics.api_chat persisted (answers 200 hi_there false) chat_abc [])
     = Json 500 (error_body "Proxy error").
Proof. split; reflexivity. Qed.

(** C10, amended. The two /api/chat handlers run the same sanitizer, the
    same conditional unshift of the system turn, and build the same
    upstream body; for every request they send the same bodies to the
    upstream; and whenever the record operation succeeds (no database is
    configured, or the INSERT resolves) they give the caller the same
    response for the same upstream answer. *)
Theorem chat_handlers_agree (env : environment) (w : world) (req : request) (t : trace) :
  record_succeeds env w = true ->
  fst (Server.api_chat env w req t) = fst (Analytics.api_chat env w req t)
  /\ sent (snd (Server.api_chat env w req t)) = sent (snd (Analytics.api_chat env w req t))
  /\ (forall messages u, Server.clean messages u = Analytics.clean messages u)
  /\ (forall system turns u,
        Server.unshift_system system turns u = Analytics.unshift_system system turns u)
  /\ (forall model temperature turns,
        Server.completion model temperature turns
        = Analytics.completion model temperature turns).
Proof.
  intros Hrec.
  split.
  { rewrite server_chat_run, analytics_chat_run.
    destruct (negb (truthy (env_value (OPENAI_API_KEY env)))); [reflexivity|].
    destruct (prepare (body req)) as [p|]; [|reflexivity]. cbv zeta.
    destruct (upstream w) as [|status text]; [reflexivity|].
    destruct (negb (ok status)).
    - symmetry. now apply record_then_succeeds.
    - destruct (JSON_parse text) as [data|]; [|reflexivity].
      symmetry. now apply record_then_succeeds. }
  split; [now rewrite server_chat_sent, analytics_chat_sent|].
  repeat split.
Qed.

Lemma chat_handlers_agree_witness :
  fst (Server.api_chat log_only (answers 200 hi_there false) chat_abc [])
  = fst (Analytics.api_chat log_only (answers 200 hi_there false) chat_abc [])
  /\ sent (snd (Server.api_chat log_only (answers 200 hi_there false) chat_abc []))
     = sent (snd (Analytics.api_chat log_only (answers 200 hi_there false) chat_abc []))
  /\ (forall messages u, Server.clean messages u = Analytics.clean messages u)
  /\ (forall system turns u,
        Server.unshift_system system turns u = Analytics.unshift_system system turns u)
  /\ (forall model temperature turns,
        Server.completion model temperature turns
        = Analytics.completion model temperature turns).
Proof.
  apply (chat_handlers_agree log_only (answers 200 hi_there false) chat_abc []).
  reflexivity.
Defined.

(* ================================================================== *)
(** * The Tracking Endpoint *)
(* ================================================================== *)

Lemma kept_payload (p : value) :
  truthy p && eqb (typeof p) "object" = is_object p || is_array p.
Proof.
  destruct p as [| |b|x|s|items|props]; simpl; try reflexivity.
  - now destruct b.
  - now destruct (negb _).
  - now destruct (negb _).
Qed.

Lemma insert_params_track (req : request) (name : string) :
  let b := or_else (body req) (VObj []) in
  event_name (insert_params (track_row req name)) = VStr (slice 64 name)
  /\ step (insert_params (track_row req name))
     = (if Number_isFinite (prop b "step") then prop b "step" else VNull)
  /\ payload (insert_params (track_row req name))
     = (if is_object (prop b "payload") || is_array (prop b "payload")
        then prop b "payload" else VNull).
Proof.
  cbv zeta. unfold insert_params, track_row.
  cbn [event_name step payload]. rewrite kept_payload.
  split; [reflexivity|]. split.
  - destruct (Number_isFinite (prop (or_else (body req) (VObj [])) "step")) eqn:E;
      [now rewrite E | reflexivity].
  - destruct (prop (or_else (body req) (VObj [])) "payload"); reflexivity.
Qed.

(** C7 as stated fails: an array payload is not a JSON object, and the
    recorded row keeps it instead of null. *)
Lemma track_array_payload_kept :
  is_object (prop (body track_array) "payload") = false
  /\ exists r,
       recorded (snd (Analytics.api_track log_only (answers 200 "" true) track_array [])) = [r]
       /\ payload r = VArr [VNum 1%float]
       /\ payload r <> VNull.
Proof.
  split; [reflexivity|].
  eexists. split; [reflexivity|]. split; [reflexivity | discriminate].
Qed.

(** C7, amended. For every /api/track request: when [event] is missing,
    empty or not a string the answer is HTTP 400 with an error body and
    nothing is recorded or logged; otherwise at most one row is recorded
    (exactly one when the event is not sampled out and the record
    operation succeeds), its [event_name] is the first 64 characters of
    [event], its [step] is the supplied step when that is a finite number
    and null otherwise, and its [payload] is the supplied payload when that
    is an object or an array and null otherwise. *)
Theorem track_validation (env : environment) (w : world) (req : request) (t : trace) :
  let b := or_else (body req) (VObj []) in
  match prop b "event" with
  | VStr name =>
      if is_empty name
      then Analytics.api_track env w req t
           = (Json 400 (VObj [("error", VStr "Missing or invalid 'event' field")]), t)
      else
        exists news,
          recorded (snd (Analytics.api_track env w req t)) = recorded t ++ news
          /\ (length news <= 1)%nat
          /\ (sampled_out env w = false -> record_succeeds env w = true ->
              length news = 1%nat)
          /\ Forall (fun r =>
                 event_name r = VStr (slice 64 name)
                 /\ step r = (if Number_isFinite (prop b "step") then prop b "step" else VNull)
                 /\ payload r = (if is_object (prop b "payload") || is_array (prop b "payload")
                                 then prop b "payload" else VNull)) news
  | _ => Analytics.api_track env w req t
         = (Json 400 (VObj [("error", VStr "Missing or invalid 'event' field")]), t)
  end.
Proof.
  cbv zeta. rewrite analytics_track_run.
  destruct (prop (or_else (body req) (VObj [])) "event") as [| |b|x|name|items|props];
    try reflexivity.
  destruct (is_empty name); [reflexivity|].
  destruct (sampled_out env w).
  { exists []. simpl. rewrite app_nil_r. repeat split; [lia | discriminate | constructor]. }
  rewrite record_then_recorded. eexists. split; [reflexivity|].
  unfold record_succeeds.
  destruct (insert_params_track req name) as (Hn & Hs & Hp).
  destruct (Analytics.pool env); [destruct (query_resolves w)|]; simpl;
    (split; [lia|]); (split; [intros _ H; congruence|]).
  - constructor; [|constructor]. repeat split; assumption.
  - constructor.
  - constructor; [|constructor]. simpl. rewrite kept_payload. repeat split.
Qed.

(* ================================================================== *)
(** * The Analytics Sink *)
(* ================================================================== *)

(** C1 as stated fails: with a database configured, the INSERT that
    rejects turns the 200 of /api/track into a 500, and likewise for
    /api/chat. *)
Lemma record_failure_changes_response :
  fst (Analytics.api_track persisted (answers 200 hi_there true) track_click [])
  = Json 200 (VObj [("ok", VBool true)])
  /\ fst (Analytics.api_track persisted (answers 200 hi_there false) track_click [])
     = Json 500 (VObj [("error", VStr "track failed")])
  /\ fst (Analytics.api_chat persisted (answers 200 hi_there true) chat_abc [])
     = Json 200 (VObj [("reply", VStr "Hi there")])
  /\ fst (Analytics.api_chat persisted (answers 200 hi_there false) chat_abc [])
     = Json 500 (VObj [("error", VStr "Proxy error")]).
Proof. repeat split. Qed.

Lemma app_self_nil {A} (t u : list A) : t = t ++ u -> u = [].
Proof.
  intros H. apply (app_inv_head t). now rewrite app_nil_r.
Qed.

(** Two traces that extend [t] are equal only if the extensions are. *)
Ltac trace_eq H :=
  first
    [ apply app_self_nil in H; discriminate H
    | rewrite <- ?app_assoc in H; apply app_inv_head in H; simpl in H;
      first [ discriminate H | injection H as H; subst ] ].

(** How /api/track depends on the database. *)
Lemma track_query (env : environment) (w : world) (req : request) (t : trace) :
  let good := Analytics.api_track env (with_query true w) req t in
  let bad := Analytics.api_track env (with_query false w) req t in
  (Analytics.pool env = false -> bad = good)
  /\ (forall r, snd good = t ++ [Insert r] ->
        bad = (Json 500 (error_body "track failed"),
               t ++ [LogError "track failed" QueryFailed]))
  /\ ((forall r, snd good <> t ++ [Insert r]) -> bad = good).
Proof.
  cbv zeta. rewrite !analytics_track_run.
  change (sampled_out env (with_query true w)) with (sampled_out env w).
  change (sampled_out env (with_query false w)) with (sampled_out env w).
  assert (Hskip : forall resp : response,
            (Analytics.pool env = false -> (resp, t) = (resp, t))
            /\ (forall r, snd (resp, t) = t ++ [Insert r] ->
                  (resp, t) = (Json 500 (error_body "track failed"),
                               t ++ [LogError "track failed" QueryFailed]))
            /\ ((forall r, snd (resp, t) <> t ++ [Insert r]) -> (resp, t) = (resp, t))).
  { intros resp. split; [reflexivity|]. split; [|reflexivity].
    intros r H. simpl in H. trace_eq H. }
  destruct (prop (or_else (body req) (VObj [])) "event") as [| |b|x|name|items|props];
    try apply Hskip.
  destruct (is_empty name); [apply Hskip|].
  destruct (sampled_out env w); [apply Hskip|].
  unfold record_then. simpl query_resolves. cbv iota.
  destruct (Analytics.pool env).
  - split; [discriminate|]. split; [reflexivity|].
    intros H. now destruct (H (insert_params (track_row req name))).
  - split; [reflexivity|]. split; [|reflexivity].
    intros r H. simpl in H. trace_eq H.
Qed.

(** How /api/chat depends on the database. *)
Lemma chat_query (env : environment) (w : world) (req : request) (t : trace) :
  let good := Analytics.api_chat env (with_query true w) req t in
  let bad := Analytics.api_chat env (with_query false w) req t in
  (Analytics.pool env = false -> bad = good)
  /\ (forall rq r, snd good = t ++ [rq; Insert r] ->
        bad = (Json 500 (error_body "Proxy error"),
               t ++ [rq; LogError "Proxy error" QueryFailed]))
  /\ ((forall rq r, snd good <> t ++ [rq; Insert r]) -> bad = good).
Proof.
  cbv zeta. rewrite !analytics_chat_run.
  change (upstream (with_query true w)) with (upstream w).
  change (upstream (with_query false w)) with (upstream w).
  destruct (negb (truthy (env_value (OPENAI_API_KEY env)))).
  { split; [reflexivity|]. split; [|reflexivity].
    intros rq r H. simpl in H. trace_eq H. }
  destruct (prepare (body req)) as [p|].
  2: { split; [reflexivity|]. split; [|reflexivity].
       intros rq r H. simpl in H. trace_eq H. }
  assert (Hrec : forall (r0 : row) (resp : response),
    (Analytics.pool env = false ->
       record_then env (with_query false w) "Proxy error" r0 resp (t ++ [chat_request env p])
       = record_then env (with_query true w) "Proxy error" r0 resp (t ++ [chat_request env p]))
    /\ (forall rq r,
          snd (record_then env (with_query true w) "Proxy error" r0 resp
                           (t ++ [chat_request env p]))
          = t ++ [rq; Insert r] ->
          record_then env (with_query false w) "Proxy error" r0 resp (t ++ [chat_request env p])
          = (Json 500 (error_body "Proxy error"),
             t ++ [rq; LogError "Proxy error" QueryFailed]))
    /\ ((forall rq r,
           snd (record_then env (with_query true w) "Proxy error" r0 resp
                            (t ++ [chat_request env p]))
           <> t ++ [rq; Insert r]) ->
        record_then env (with_query false w) "Proxy error" r0 resp (t ++ [chat_request env p])
        = record_then env (with_query true w) "Proxy error" r0 resp (t ++ [chat_request env p]))).
  { intros r0 resp. unfold record_then. simpl query_resolves. cbv iota.
    destruct (Analytics.pool env).
    - split; [discriminate|]. split.
      + intros rq r H. simpl in H. trace_eq H. now rewrite <- app_assoc.
      + intros H. destruct (H (chat_request env p) (insert_params r0)).
        simpl. now rewrite <- app_assoc.
    - split; [reflexivity|]. split; [|reflexivity].
      intros rq r H. simpl in H. trace_eq H. }
  cbv zeta.
  destruct (upstream w) as [|status text].
  { split; [reflexivity|]. split; [|reflexivity].
    intros rq r H. simpl in H. trace_eq H. }
  destruct (negb (ok status)); [apply Hrec|].
  destruct (JSON_parse text) as [data|]; [apply Hrec|].
  split; [reflexivity|]. split; [|reflexivity].
  intros rq r H. simpl in H. trace_eq H.
Qed.

(** C1, amended. Without a database the record operation cannot fail and
    no response depends on the database. With a database, a rejected
    INSERT is not swallowed inside [recordEvent]: it is caught by the
    handler's own [catch], logged, and the caller receives HTTP 500
    ([track failed] from /api/track, [Proxy error] from /api/chat) in every
    run that would have inserted a row; a run that reaches no INSERT is
    unchanged. *)
Theorem record_failure_caught (env : environment) (w : world) (req : request) (t : trace) :
  let track_good := Analytics.api_track env (with_query true w) req t in
  let track_bad := Analytics.api_track env (with_query false w) req t in
  let chat_good := Analytics.api_chat env (with_query true w) req t in
  let chat_bad := Analytics.api_chat env (with_query false w) req t in
  (Analytics.pool env = false ->
     (forall r u, Analytics.recordEvent env w r u = (Return tt, u ++ [LogEvent r]))
     /\ track_bad = track_good /\ chat_bad = chat_good)
  /\ (forall r, snd track_good = t ++ [Insert r] ->
        track_bad = (Json 500 (VObj [("error", VStr "track failed")]),
                     t ++ [LogError "track failed" QueryFailed]))
  /\ ((forall r, snd track_good <> t ++ [Insert r]) -> track_bad = track_good)
  /\ (forall rq r, snd chat_good = t ++ [rq; Insert r] ->
        chat_bad = (Json 500 (VObj [("error", VStr "Proxy error")]),
                    t ++ [rq; LogError "Proxy error" QueryFailed]))
  /\ ((forall rq r, snd chat_good <> t ++ [rq; Insert r]) -> chat_bad = chat_good).
Proof.
  cbv zeta.
  destruct (track_query env w req t) as (T1 & T2 & T3).
  destruct (chat_query env w req t) as (C1 & C2 & C3).
  split.
  { intros Hpool. split; [|split; [now apply T1 | now apply C1]].
    intros r u. rewrite recordEvent_run. now rewrite Hpool. }
  split; [exact T2|]. split; [exact T3|]. split; [exact C2 | exact C3].
Qed.

(* ================================================================== *)
(** * The Origin Guard *)
(* ================================================================== *)

Lemma has_spec (set : list string) (s : string) :
  has set (VStr s) = true <-> In s set.
Proof.
  simpl. rewrite existsb_exists. split.
  - intros (x & Hin & Heq). apply string_eqb_eq in Heq. now subst.
  - intros Hin. exists s. split; [exact Hin | apply string_eqb_refl].
Qed.

Lemma origin_allows (o : option string) :
  Analytics.origin (env_value o) = Allow
  <-> o = None \/ o = Some "" \/ exists s, o = Some s /\ In s Analytics.ALLOWED.
Proof.
  unfold Analytics.origin.
  destruct o as [s|]; simpl env_value.
  - destruct s as [|c s].
    + split; [auto | reflexivity].
    + pose proof (has_spec Analytics.ALLOWED (c :: s)) as Hspec.
      destruct (has Analytics.ALLOWED (VStr (c :: s))); simpl.
      * split; [|reflexivity]. intros _. right. right.
        exists (c :: s). split; [reflexivity | now apply Hspec].
      * split; [discriminate|].
        intros [H|[H|(s' & H & Hin)]]; try discriminate.
        injection H as <-. apply Hspec in Hin. discriminate.
  - split; [auto | reflexivity].
Qed.

(** C8 as stated fails: an Origin header that is present and empty is
    not absent and not on the allow-list, and the guard lets it through to
    the handler. *)
Lemma empty_origin_allowed :
  let req := {| body := VObj []; headers := [("origin", "")]; remoteAddress := None |} in
  assoc "origin" (headers req) = Some ""
  /\ ~ In "" Analytics.ALLOWED
  /\ Analytics.origin (header req "origin") = Allow
  /\ Analytics.app log_only (answers 200 "" true) Analytics.POST_track req []
     = (Json 400 (error_body "Missing or invalid 'event' field"), []).
Proof.
  cbv zeta. split; [reflexivity|]. split; [|split; reflexivity].
  simpl. intros [H|[H|[H|[H|[]]]]]; discriminate H.
Qed.

(** C8, amended. For every incoming request the guard of both servers
    allows it exactly when its origin is absent, is the empty string, or
    is equal to a member of the fixed allow-list (equality of strings, no
    wildcard and no suffix); a request with any other origin is refused
    before any route handler runs: nothing is fetched, recorded or logged. *)
Theorem origin_guard (env : environment) (w : world) (req : request) (t : trace) :
  let o := assoc "origin" (headers req) in
  (Analytics.origin (header req "origin") = Allow
   <-> o = None \/ o = Some "" \/ exists s, o = Some s /\ In s Analytics.ALLOWED)
  /\ Server.origin (header req "origin") = Analytics.origin (header req "origin")
  /\ Server.ALLOWED = Analytics.ALLOWED
  /\ (Analytics.origin (header req "origin") <> Allow ->
      forall rt, Analytics.app env w rt req t = (Refused "Not allowed by CORS", t))
  /\ (Server.origin (header req "origin") <> Allow ->
      forall rt, Server.app env w rt req t = (Refused "Not allowed by CORS", t)).
Proof.
  cbv zeta. split; [apply origin_allows|].
  split; [reflexivity|]. split; [reflexivity|].
  split.
  - intros H rt. unfold Analytics.app.
    destruct (Analytics.origin (header req "origin")) as [|msg] eqn:E; [now destruct H|].
    unfold Analytics.origin in E.
    destruct (_ || _)%bool; [discriminate | now injection E as <-].
  - intros H rt. unfold Server.app.
    destruct (Server.origin (header req "origin")) as [|msg] eqn:E; [now destruct H|].
    unfold Server.origin in E.
    destruct (_ || _)%bool; [discriminate | now injection E as <-].
Qed.

(* ================================================================== *)
(** * Further documented behaviours *)
(* ================================================================== *)

(** X1. With the credential unset or empty, /api/chat answers 500
    [Missing OPENAI_API_KEY] whatever the body, and does nothing else. *)
Theorem chat_missing_key (env : environment) (w : world) (req : request) (t : trace) :
  truthy (env_value (OPENAI_API_KEY env)) = false ->
  Analytics.api_chat env w req t = (Json 500 (VObj [("error", VStr "Missing OPENAI_API_KEY")]), t)
  /\ Server.api_chat env w req t = (Json 500 (VObj [("error", VStr "Missing OPENAI_API_KEY")]), t).
Proof.
  intros H. rewrite analytics_chat_run, server_chat_run, H. split; reflexivity.
Qed.

Lemma chat_missing_key_witness :
  let env := {| OPENAI_API_KEY := Some ""; OPENAI_API_BASE := None; DATABASE_URL := None;
                ANALYTICS_SAMPLE := None; ANALYTICS_LOG_CHAT_CONTENT := None |} in
  Analytics.api_chat env (answers 200 hi_there true) chat_abc []
  = (Json 500 (VObj [("error", VStr "Missing OPENAI_API_KEY")]), [])
  /\ Server.api_chat env (answers 200 hi_there true) chat_abc []
     = (Json 500 (VObj [("error", VStr "Missing OPENAI_API_KEY")]), []).
Proof.
  cbv zeta.
  apply (chat_missing_key
           {| OPENAI_API_KEY := Some ""; OPENAI_API_BASE := None; DATABASE_URL := None;
              ANALYTICS_SAMPLE := None; ANALYTICS_LOG_CHAT_CONTENT := None |}
           (answers 200 hi_there true) chat_abc []).
  reflexivity.
Defined.

(** X2. With the credential set, both chat handlers answer 500 [Proxy
    error] when [String(system)] or [Number(temperature)] throws, when the
    upstream gives no response, and when a successful response has a body
    that is not JSON; the analytics server logs the error as the last
    thing it does and records no event. *)
Theorem chat_proxy_error (env : environment) (w : world) (req : request) (t : trace) :
  truthy (env_value (OPENAI_API_KEY env)) = true ->
  (prepare (body req) = None
   \/ upstream w = NoResponse
   \/ exists status text,
        upstream w = Response status text /\ ok status = true /\ JSON_parse text = None) ->
  fst (Analytics.api_chat env w req t) = Json 500 (VObj [("error", VStr "Proxy error")])
  /\ fst (Server.api_chat env w req t) = Json 500 (VObj [("error", VStr "Proxy error")])
  /\ recorded (snd (Analytics.api_chat env w req t)) = recorded t
  /\ exists err before,
       snd (Analytics.api_chat env w req t) = before ++ [LogError "Proxy error" err].
Proof.
  intros Hkey H. rewrite analytics_chat_run, server_chat_run, Hkey. simpl negb. cbv iota.
  destruct (prepare (body req)) as [p|].
  - cbv zeta.
    destruct H as [H | [-> | (status & text & -> & -> & ->)]]; [discriminate H| |];
      simpl negb; cbv iota.
    + repeat split.
      * simpl. rewrite !recorded_app. simpl. now rewrite !app_nil_r.
      * now exists FetchFailed, (t ++ [chat_request env p]).
    + repeat split.
      * simpl. rewrite !recorded_app. simpl. now rewrite !app_nil_r.
      * now exists SyntaxError, (t ++ [chat_request env p]).
  - repeat split.
    + simpl. rewrite recorded_app. simpl. now rewrite app_nil_r.
    + now exists TypeError, t.
Qed.

Lemma chat_proxy_error_witness :
  fst (Analytics.api_chat log_only (answers 200 "OK" true) chat_abc [])
  = Json 500 (VObj [("error", VStr "Proxy error")])
  /\ fst (Server.api_chat log_only (answers 200 "OK" true) chat_abc [])
     = Json 500 (VObj [("error", VStr "Proxy error")])
  /\ recorded (snd (Analytics.api_chat log_only (answers 200 "OK" true) chat_abc []))
     = recorded []
  /\ exists err before,
       snd (Analytics.api_chat log_only (answers 200 "OK" true) chat_abc [])
       = before ++ [LogError "Proxy error" err].
Proof.
  apply (chat_proxy_error log_only (answers 200 "OK" true) chat_abc []).
  - reflexivity.
  - right. right. exists 200, "OK". repeat split.
Defined.

(** X3. An event that sampling drops is answered [{ok: true, sampled:
    false}] and never reaches the sink; the rate is read from the
    environment at each request. *)
Theorem track_sampled_out (env : environment) (w : world) (req : request) (t : trace)
    (name : string) (sample : number) :
  prop (or_else (body req) (VObj [])) "event" = VStr name ->
  is_empty name = false ->
  to_number (coalesce (env_value (ANALYTICS_SAMPLE env)) (VStr "1")) = Some sample ->
  PrimFloat.ltb sample 1 = true ->
  PrimFloat.ltb sample (random w) = true ->
  Analytics.api_track env w req t
  = (Json 200 (VObj [("ok", VBool true); ("sampled", VBool false)]), t).
Proof.
  intros Hev Hne Hs H1 H2. rewrite analytics_track_run, Hev, Hne.
  unfold sampled_out. rewrite Hs. change PrimFloat.one with 1%float. now rewrite H1, H2.
Qed.

Lemma track_sampled_out_witness :
  let env := {| OPENAI_API_KEY := None; OPENAI_API_BASE := None; DATABASE_URL := None;
                ANALYTICS_SAMPLE := Some "0.25"; ANALYTICS_LOG_CHAT_CONTENT := None |} in
  Analytics.api_track env (answers 200 "" true) track_click []
  = (Json 200 (VObj [("ok", VBool true); ("sampled", VBool false)]), []).
Proof.
  cbv zeta.
  apply (track_sampled_out
           {| OPENAI_API_KEY := None; OPENAI_API_BASE := None; DATABASE_URL := None;
              ANALYTICS_SAMPLE := Some "0.25"; ANALYTICS_LOG_CHAT_CONTENT := None |}
           (answers 200 "" true) track_click [] "click" 0.25%float); reflexivity.
Defined.

(* ================================================================== *)
(** * Beyond the documented behaviours: what the handlers keep *)
(* ================================================================== *)

Import Measure.

Lemma not_ok_not_200 (status : Z) : negb (ok status) = true -> status <> 200.
Proof. intros H ->. discriminate H. Qed.

Lemma record_then_status (env : environment) (w : world) (msg : string)
    (r : row) (status : Z) (b : value) (t : trace) :
  status <> 500 ->
  (status_code (fst (record_then env w msg r (Json status b) t)) = Some status
   <-> record_succeeds env w = true).
Proof.
  intros Hs. unfold record_then, record_succeeds.
  destruct (Analytics.pool env); [destruct (query_resolves w)|]; simpl; split; intros H;
    try reflexivity; try discriminate.
  injection H as H. now destruct Hs.
Qed.

(** X4. /api/chat answers 200 exactly when the credential is set,
    [String(system)] and [Number(temperature)] do not throw, the upstream
    answers with a success status, its body parses as JSON and (in the
    server with analytics) the record operation succeeds; the body of a
    200 is then [{reply: v}] with [v] neither undefined nor null. *)
Theorem chat_answers_200 (env : environment) (w : world) (req : request) (t : trace) :
  let reaches_reply :=
    truthy (env_value (OPENAI_API_KEY env)) = true
    /\ prepare (body req) <> None
    /\ exists status text data,
         upstream w = Response status text /\ ok status = true
         /\ JSON_parse text = Some data in
  (status_code (fst (Analytics.api_chat env w req t)) = Some 200
   <-> reaches_reply /\ record_succeeds env w = true)
  /\ (status_code (fst (Server.api_chat env w req t)) = Some 200 <-> reaches_reply)
  /\ (forall b, fst (Analytics.api_chat env w req t) = Json 200 b
                \/ fst (Server.api_chat env w req t) = Json 200 b ->
        exists v, b = VObj [("reply", v)] /\ nullish v = false).
Proof.
  cbv zeta. rewrite analytics_chat_run, server_chat_run.
  destruct (truthy (env_value (OPENAI_API_KEY env))); simpl negb; cbv iota.
  2: { split; [|split].
       - split; [discriminate | intros [[H _] _]; discriminate].
       - split; [discriminate | intros [H _]; discriminate].
       - intros b [H|H]; discriminate. }
  destruct (prepare (body req)) as [p|].
  2: { split; [|split].
       - split; [discriminate | intros [(_ & H & _) _]; now destruct H].
       - split; [discriminate | intros (_ & H & _); now destruct H].
       - intros b [H|H]; discriminate. }
  cbv zeta.
  destruct (upstream w) as [|status text].
  { split; [|split].
    - split; [discriminate | intros [(_ & _ & s & x & d & H & _) _]; discriminate].
    - split; [discriminate | intros (_ & _ & s & x & d & H & _); discriminate].
    - intros b [H|H]; discriminate. }
  destruct (negb (ok status)) eqn:Hok.
  { pose proof (not_ok_not_200 status Hok) as Hne.
    assert (Hno : ok status = true -> False) by (intros E; rewrite E in Hok; discriminate).
    split; [|split].
    - split.
      + unfold record_then.
        destruct (Analytics.pool env); [destruct (query_resolves w)|]; simpl; intros H;
          try discriminate; injection H as H; now destruct Hne.
      + intros [(_ & _ & s & x & d & H & E & _) _]. injection H as <- <-. now destruct Hno.
    - split.
      + simpl. intros H. injection H as H. now destruct Hne.
      + intros (_ & _ & s & x & d & H & E & _). injection H as <- <-. now destruct Hno.
    - intros b [H|H].
      + unfold record_then in H.
        destruct (Analytics.pool env); [destruct (query_resolves w)|]; simpl in H;
          try discriminate; injection H as H _; now destruct Hne.
      + simpl in H. injection H as H _. now destruct Hne. }
  assert (Hyes : ok status = true) by (destruct (ok status); [reflexivity | discriminate]).
  destruct (JSON_parse text) as [data|] eqn:Hj.
  - split; [|split].
    + rewrite record_then_status by discriminate.
      split; [|now intros [_ H]].
      intros H. split; [|exact H]. split; [reflexivity|]. split; [discriminate|].
      now exists status, text, data.
    + split; [|reflexivity].
      intros _. split; [reflexivity|]. split; [discriminate|]. now exists status, text, data.
    + intros b Hb. exists (reply_of data). split; [|apply coalesce_not_nullish].
      destruct Hb as [H|H].
      * unfold record_then in H.
        destruct (Analytics.pool env); [destruct (query_resolves w)|]; simpl in H;
          try discriminate; now injection H as <-.
      * simpl in H. now injection H as <-.
  - split; [|split].
    + split; [discriminate|].
      intros [(_ & _ & s & x & d & H & _ & E) _]. injection H as <- <-. congruence.
    + split; [discriminate|].
      intros (_ & _ & s & x & d & H & _ & E). injection H as <- <-. congruence.
    + intros b [H|H]; discriminate.
Qed.

(** ** No retries, no stray effects *)

Lemma record_then_delta (env : environment) (w : world) (msg : string)
    (r : row) (resp : response) (t : trace) :
  exists e, snd (record_then env w msg r resp t) = t ++ [e]
            /\ request_of e = []
            /\ (length (event_of e) <= 1)%nat.
Proof.
  unfold record_then.
  destruct (Analytics.pool env); [destruct (query_resolves w)|]; simpl;
    eexists; (split; [reflexivity|]); simpl; split; (reflexivity || lia).
Qed.

(** X6. One /api/chat request makes at most one upstream call (no retry)
    and records at most one event, and only after that call. What it adds
    to the trace is nothing (no credential), or only the log line of the
    TypeError of a conversion, thrown before the call, or the single fetch
    followed by at most one more effect. src/server.js records nothing.
    One /api/track request never calls the upstream and does at most one
    thing. *)
Theorem effects_bounded (env : environment) (w : world) (req : request) (t : trace) :
  (exists delta,
     snd (Analytics.api_chat env w req t) = t ++ delta
     /\ (length (recorded delta) <= length (sent delta) <= 1)%nat
     /\ (delta = []
         \/ delta = [LogError "Proxy error" TypeError]
         \/ exists url authorization text rest,
              delta = Fetch url authorization text :: rest
              /\ sent rest = [] /\ (length rest <= 1)%nat))
  /\ (exists delta,
        snd (Server.api_chat env w req t) = t ++ delta
        /\ recorded delta = []
        /\ (length (sent delta) <= 1)%nat)
  /\ (exists delta,
        snd (Analytics.api_track env w req t) = t ++ delta
        /\ sent delta = []
        /\ (length delta <= 1)%nat).
Proof.
  split; [|split].
  - rewrite analytics_chat_run.
    destruct (negb (truthy (env_value (OPENAI_API_KEY env)))).
    { exists []. simpl. rewrite app_nil_r. repeat split; auto. }
    destruct (prepare (body req)) as [p|].
    2: { exists [LogError "Proxy error" TypeError]. simpl. repeat split; auto. }
    cbv zeta.
    assert (Hrec : forall r resp,
      exists delta,
        snd (record_then env w "Proxy error" r resp (t ++ [chat_request env p]))
        = t ++ delta
        /\ (length (recorded delta) <= length (sent delta) <= 1)%nat
        /\ (delta = []
            \/ delta = [LogError "Proxy error" TypeError]
            \/ exists url authorization text rest,
                 delta = Fetch url authorization text :: rest
                 /\ sent rest = [] /\ (length rest <= 1)%nat)).
    { intros r resp.
      destruct (record_then_delta env w "Proxy error" r resp
                  (t ++ [chat_request env p])) as (e & He & Hq & Hn).
      exists [chat_request env p; e]. rewrite He, <- app_assoc.
      split; [reflexivity|]. unfold chat_request.
      change (sent [?a; e]) with (request_of a ++ request_of e ++ []).
      change (recorded [?a; e]) with (event_of a ++ event_of e ++ []).
      rewrite Hq. simpl. rewrite app_nil_r. split; [lia|].
      right. right. do 3 eexists. exists [e]. simpl. rewrite Hq. auto. }
    assert (Hfail : forall err,
      exists delta,
        (t ++ [chat_request env p]) ++ [LogError "Proxy error" err] = t ++ delta
        /\ (length (recorded delta) <= length (sent delta) <= 1)%nat
        /\ (delta = []
            \/ delta = [LogError "Proxy error" TypeError]
            \/ exists url authorization text rest,
                 delta = Fetch url authorization text :: rest
                 /\ sent rest = [] /\ (length rest <= 1)%nat)).
    { intros err. exists [chat_request env p; LogError "Proxy error" err].
      rewrite <- app_assoc. split; [reflexivity|]. split; [simpl; lia|].
      right. right. unfold chat_request. do 3 eexists. eexists. split; [reflexivity|]. auto. }
    destruct (upstream w) as [|status text]; [apply Hfail|].
    destruct (negb (ok status)); [apply Hrec|].
    destruct (JSON_parse text); [apply Hrec | apply Hfail].
  - rewrite server_chat_run.
    destruct (negb (truthy (env_value (OPENAI_API_KEY env)))).
    { exists []. simpl. rewrite app_nil_r. auto. }
    destruct (prepare (body req)) as [p|].
    2: { exists [ConsoleError "Proxy error:" TypeError]. simpl. auto. }
    cbv zeta.
    destruct (upstream w) as [|status text];
      [|destruct (negb (ok status)); [|destruct (JSON_parse text)]]; simpl snd;
      rewrite <- ?app_assoc; eexists; (split; [reflexivity|]); simpl; auto.
  - rewrite analytics_track_run.
    assert (Hnone : forall resp : response,
              exists delta, snd (resp, t) = t ++ delta
                            /\ sent delta = [] /\ (length delta <= 1)%nat).
    { intros resp. exists []. simpl. rewrite app_nil_r. auto. }
    destruct (prop (or_else (body req) (VObj [])) "event"); try apply Hnone.
    destruct (is_empty s); [apply Hnone|].
    destruct (sampled_out env w); [apply Hnone|].
    destruct (record_then_delta env w "track failed" (track_row req s)
                (Json 200 (VObj [("ok", VBool true)])) t) as (e & He & Hq & _).
    exists [e]. rewrite He. split; [reflexivity|]. simpl. rewrite Hq. auto.
Qed.

(** ** /api/track: the status, case by case *)

(** X7. /api/track answers 400 exactly when [event] is not a non-empty
    string; otherwise it answers 500 exactly when the event is not sampled
    out, a database is configured and its INSERT rejects; in every other
    case it answers 200. It never throws. *)
Theorem track_status (env : environment) (w : world) (req : request) (t : trace) :
  let valid :=
    match prop (or_else (body req) (VObj [])) "event" with
    | VStr name => negb (is_empty name)
    | _ => false
    end in
  let rejected :=
    negb (sampled_out env w) && Analytics.pool env && negb (query_resolves w) in
  status_code (fst (Analytics.api_track env w req t))
  = Some (if negb valid then 400 else if rejected then 500 else 200).
Proof.
  cbv zeta. rewrite analytics_track_run.
  destruct (prop (or_else (body req) (VObj [])) "event"); try reflexivity.
  destruct (is_empty s); [reflexivity|].
  destruct (sampled_out env w); [reflexivity|].
  unfold record_then.
  destruct (Analytics.pool env); [destruct (query_resolves w)|]; reflexivity.
Qed.

(** ** The sample rate *)

Lemma SFcompare_refl (f : spec_float) : f <> S754_nan -> SFcompare f f = Some Eq.
Proof.
  destruct f as [s|s| |s m e]; intros H; simpl; try reflexivity.
  - now destruct s.
  - now destruct H.
  - destruct s; rewrite Z.compare_refl, Pos.compare_cont_refl; reflexivity.
Qed.

(** NaN is below nothing. *)
Lemma nan_not_below (x y : number) : isNaN x = true -> PrimFloat.ltb x y = false.
Proof.
  unfold isNaN, PrimFloat.is_nan.
  rewrite FloatAxioms.eqb_spec, FloatAxioms.ltb_spec. unfold SFeqb, SFltb.
  intros H. destruct (Prim2SF x) as [s|s| |s m e] eqn:E.
  - rewrite SFcompare_refl in H by discriminate. discriminate.
  - rewrite SFcompare_refl in H by discriminate. discriminate.
  - reflexivity.
  - rewrite SFcompare_refl in H by discriminate. discriminate.
Qed.

(** X8. Sampling is off when ANALYTICS_SAMPLE is unset and when its text is
    no number ([Number] gives NaN): then no valid event is dropped, each
    one reaches the sink. When the variable is set but blank (empty or
    white space), [Number] gives 0 and every event whose draw is positive
    is dropped. *)
Theorem sampling_edges (env : environment) (w : world) (req : request) (t : trace)
    (name : string) :
  prop (or_else (body req) (VObj [])) "event" = VStr name ->
  is_empty name = false ->
  ((ANALYTICS_SAMPLE env = None
    \/ exists x, to_number (env_value (ANALYTICS_SAMPLE env)) = Some x /\ isNaN x = true) ->
   sampled_out env w = false
   /\ (record_succeeds env w = true ->
       fst (Analytics.api_track env w req t) = Json 200 (VObj [("ok", VBool true)])
       /\ length (recorded (snd (Analytics.api_track env w req t)))
          = S (length (recorded t))))
  /\ (forall s, ANALYTICS_SAMPLE env = Some s -> trim s = "" ->
      sampled_out env w = PrimFloat.ltb 0 (random w)
      /\ (PrimFloat.ltb 0 (random w) = true ->
          Analytics.api_track env w req t
          = (Json 200 (VObj [("ok", VBool true); ("sampled", VBool false)]), t))).
Proof.
  intros Hev Hne. split.
  - intros Hoff.
    assert (Hs : sampled_out env w = false).
    { unfold sampled_out. destruct Hoff as [-> | (x & Hx & Hnan)]; [reflexivity|].
      destruct (ANALYTICS_SAMPLE env) as [s|]; [|reflexivity].
      change (coalesce (env_value (Some s)) (VStr "1")) with (VStr s).
      change (env_value (Some s)) with (VStr s) in Hx.
      rewrite Hx. now rewrite (nan_not_below _ PrimFloat.one Hnan). }
    split; [exact Hs|]. intros Hrec.
    rewrite analytics_track_run, Hev, Hne, Hs, record_then_recorded.
    unfold record_succeeds in Hrec. unfold record_then.
    destruct (Analytics.pool env); [simpl in Hrec; rewrite Hrec|];
      (split; [reflexivity|]); rewrite length_app; simpl; lia.
  - intros s Hs Hblank.
    assert (Hout : sampled_out env w = PrimFloat.ltb 0 (random w)).
    { unfold sampled_out. rewrite Hs.
      change (coalesce (env_value (Some s)) (VStr "1")) with (VStr s).
      unfold to_number, string_to_number. rewrite Hblank. reflexivity. }
    split; [exact Hout|]. intros Hpos.
    now rewrite analytics_track_run, Hev, Hne, Hout, Hpos.
Qed.

Lemma sampling_edges_witness :
  let env := {| OPENAI_API_KEY := None; OPENAI_API_BASE := None; DATABASE_URL := None;
                ANALYTICS_SAMPLE := Some "half"; ANALYTICS_LOG_CHAT_CONTENT := None |} in
  let w := answers 200 "" true in
  ((ANALYTICS_SAMPLE env = None
    \/ exists x, to_number (env_value (ANALYTICS_SAMPLE env)) = Some x /\ isNaN x = true) ->
   sampled_out env w = false
   /\ (record_succeeds env w = true ->
       fst (Analytics.api_track env w track_click []) = Json 200 (VObj [("ok", VBool true)])
       /\ length (recorded (snd (Analytics.api_track env w track_click [])))
          = S (length (recorded []))))
  /\ (forall s, ANALYTICS_SAMPLE env = Some s -> trim s = "" ->
      sampled_out env w = PrimFloat.ltb 0 (random w)
      /\ (PrimFloat.ltb 0 (random w) = true ->
          Analytics.api_track env w track_click []
          = (Json 200 (VObj [("ok", VBool true); ("sampled", VBool false)]), []))).
Proof.
  cbv zeta.
  apply (sampling_edges
           {| OPENAI_API_KEY := None; OPENAI_API_BASE := None; DATABASE_URL := None;
              ANALYTICS_SAMPLE := Some "half"; ANALYTICS_LOG_CHAT_CONTENT := None |}
           (answers 200 "" true) track_click [] "click"); reflexivity.
Defined.

(** ** clientIp *)

Lemma trim_end_cons (c : code_unit) (r : string) :
  trim_end (c :: r)
  = match trim_end r with
    | [] => if is_space c then [] else [c]
    | r' => c :: r'
    end.
Proof. reflexivity. Qed.

Lemma trim_end_idem (s : string) : trim_end (trim_end s) = trim_end s.
Proof.
  induction s as [|c r IH]; [reflexivity|].
  rewrite trim_end_cons. destruct (trim_end r) as [|c' r'] eqn:E.
  - destruct (is_space c) eqn:Hc; [reflexivity|].
    rewrite trim_end_cons. cbn [trim_end]. now rewrite Hc.
  - rewrite trim_end_cons, IH. reflexivity.
Qed.

(** A string that starts with no white space keeps its first code unit
    through [trim_end]. *)
Lemma trim_end_head (c : code_unit) (r : string) :
  is_space c = false -> exists r', trim_end (c :: r) = c :: r'.
Proof.
  intros Hc. rewrite trim_end_cons. destruct (trim_end r); [rewrite Hc|]; eauto.
Qed.

Lemma trim_start_head (s : string) :
  trim_start s = [] \/ exists c r, trim_start s = c :: r /\ is_space c = false.
Proof.
  induction s as [|c r IH]; [now left|].
  cbn [trim_start]. destruct (is_space c) eqn:Hc; [exact IH|]. right. now exists c, r.
Qed.

Lemma trim_idem (s : string) : trim (trim s) = trim s.
Proof.
  unfold trim. destruct (trim_start_head s) as [-> | (c & r & -> & Hc)]; [reflexivity|].
  destruct (trim_end_head c r Hc) as (r' & E). rewrite E.
  cbn [trim_start]. rewrite Hc, <- E. apply trim_end_idem.
Qed.

Lemma contains_trim_start (c : code_unit) (s : string) :
  contains c s = false -> contains c (trim_start s) = false.
Proof.
  induction s as [|c' r IH]; [reflexivity|].
  cbn [contains trim_start]. intros H. apply orb_false_iff in H. destruct H as [H1 H2].
  destruct (is_space c'); [now apply IH|]. cbn [contains]. now rewrite H1, H2.
Qed.

Lemma contains_trim_end (c : code_unit) (s : string) :
  contains c s = false -> contains c (trim_end s) = false.
Proof.
  induction s as [|c' r IH]; [reflexivity|].
  cbn [contains]. rewrite trim_end_cons.
  intros H. apply orb_false_iff in H. destruct H as [H1 H2].
  specialize (IH H2). destruct (trim_end r) as [|c'' r'].
  - destruct (is_space c'); [reflexivity|]. cbn [contains]. now rewrite H1.
  - cbn [contains] in *. now rewrite H1, IH.
Qed.

Lemma split_comma_head_clean (s : string) : contains ","%u (split_comma_head s) = false.
Proof.
  induction s as [|c r IH]; [reflexivity|].
  cbn [split_comma_head]. destruct (c =? ","%u) eqn:E; [reflexivity|].
  cbn [contains]. rewrite Z.eqb_sym, E. exact IH.
Qed.

(** X9. [clientIp] never gives undefined. With an x-forwarded-for header
    it gives a string, whatever the socket says: the first comma-separated
    entry, holding no comma and no white space at either end (trimming it
    again changes nothing). Without the header it gives the address of the
    socket when there is a non-empty one, and null otherwise. *)
Theorem client_ip_shape (req : request) :
  Analytics.clientIp req <> VUndefined
  /\ (forall fwd, assoc "x-forwarded-for" (headers req) = Some fwd ->
        exists ip,
          Analytics.clientIp req = VStr ip
          /\ ip = trim (split_comma_head fwd)
          /\ contains ","%u ip = false
          /\ trim ip = ip
          /\ forall other,
               Analytics.clientIp {| body := body req; headers := headers req;
                                     remoteAddress := other |} = VStr ip)
  /\ (assoc "x-forwarded-for" (headers req) = None ->
        match remoteAddress req with
        | Some (c :: r) => Analytics.clientIp req = VStr (c :: r)
        | _ => Analytics.clientIp req = VNull
        end).
Proof.
  unfold Analytics.clientIp, header.
  destruct (assoc "x-forwarded-for" (headers req)) as [fwd|] eqn:E; simpl env_value.
  - split; [discriminate|]. split; [|discriminate].
    intros f H. injection H as <-. exists (trim (split_comma_head fwd)).
    split; [reflexivity|]. split; [reflexivity|].
    split; [apply contains_trim_end, contains_trim_start, split_comma_head_clean|].
    split; [apply trim_idem|].
    intros other. cbn [headers]. now rewrite E.
  - split.
    + destruct (remoteAddress req) as [[|c r]|]; discriminate.
    + split; [discriminate|]. intros _.
      destruct (remoteAddress req) as [[|c r]|]; reflexivity.
Qed.

(** ** recordEvent and the rows that reach the sink *)

Lemma or_else_null_idem (v : value) : or_else (or_else v VNull) VNull = or_else v VNull.
Proof. unfold or_else. destruct (truthy v) eqn:E; [now rewrite E | reflexivity]. Qed.

Lemma or_else_null_shape (v : value) : null_or_truthy (or_else v VNull) = true.
Proof.
  unfold or_else. destruct (truthy v) eqn:E; [|reflexivity].
  destruct v; simpl in *; congruence.
Qed.

(** X10. The parameters [recordEvent] binds to its INSERT: every text
    column and the payload is null or a truthy value (a missing, undefined
    or empty field becomes null), [step] is a finite number or null, the
    name is passed as it is; and they are a fixed point: recording the
    inserted row again inserts the very same parameters. *)
Theorem insert_normalizes (env : environment) (w : world) (r r' : row) (t : trace) :
  In (Insert r') (snd (Analytics.recordEvent env w r [])) ->
  null_or_truthy (session_id r') = true
  /\ null_or_truthy (user_agent r') = true
  /\ null_or_truthy (ip r') = true
  /\ null_or_truthy (page r') = true
  /\ null_or_truthy (section_id r') = true
  /\ null_or_truthy (payload r') = true
  /\ finite_or_null (step r') = true
  /\ event_name r' = event_name r
  /\ Analytics.recordEvent env w r' t = (Return tt, t ++ [Insert r']).
Proof.
  rewrite !recordEvent_run.
  destruct (Analytics.pool env); [destruct (query_resolves w)|]; simpl;
    [ | intros [] | intros [E|[]]; discriminate E ].
  intros [E|[]]. injection E as <-. unfold insert_params. cbn [session_id user_agent ip
    page section_id payload step event_name].
  repeat (split; [apply or_else_null_shape|]).
  split.
  { destruct (Number_isFinite (step r)) eqn:E; [|reflexivity].
    destruct (step r); simpl in *; congruence. }
  split; [reflexivity|].
  rewrite !or_else_null_idem.
  destruct (Number_isFinite (step r)) eqn:E'; [now rewrite E' | reflexivity].
Qed.

Lemma insert_normalizes_witness :
  let r := {| session_id := VStr ""; user_agent := VUndefined; ip := VStr "10.0.0.1";
              page := VNull; step := VStr "3"; section_id := VBool false;
              event_name := VStr "click"; payload := VNum 0%float |} in
  let r' := {| session_id := VNull; user_agent := VNull; ip := VStr "10.0.0.1";
               page := VNull; step := VNull; section_id := VNull;
               event_name := VStr "click"; payload := VNull |} in
  null_or_truthy (session_id r') = true
  /\ null_or_truthy (user_agent r') = true
  /\ null_or_truthy (ip r') = true
  /\ null_or_truthy (page r') = true
  /\ null_or_truthy (section_id r') = true
  /\ null_or_truthy (payload r') = true
  /\ finite_or_null (step r') = true
  /\ event_name r' = event_name r
  /\ Analytics.recordEvent persisted (answers 200 "" true) r' []
     = (Return tt, [] ++ [Insert r']).
Proof.
  cbv zeta.
  apply (insert_normalizes persisted (answers 200 "" true)
           {| session_id := VStr ""; user_agent := VUndefined; ip := VStr "10.0.0.1";
              page := VNull; step := VStr "3"; section_id := VBool false;
              event_name := VStr "click"; payload := VNum 0%float |}).
  left. reflexivity.
Defined.

Lemma slice_length (n : nat) (s : string) : (length (slice n s) <= n)%nat.
Proof. unfold slice. apply firstn_le_length. Qed.

Lemma slice_nonempty (n : nat) (s : string) :
  is_empty s = false -> is_empty (slice (S n) s) = false.
Proof. now destruct s. Qed.

Lemma text_or_null_header (req : request) (name : string) :
  text_or_null (or_else (header req name) VNull) = true.
Proof. unfold header. destruct (assoc name (headers req)) as [[|c r]|]; reflexivity. Qed.

Lemma text_or_null_agent (req : request) :
  text_or_null (or_else (header req "user-agent") (VStr "")) = true.
Proof. unfold header. destruct (assoc _ (headers req)) as [[|c r]|]; reflexivity. Qed.

Lemma text_or_null_ip (req : request) : text_or_null (Analytics.clientIp req) = true.
Proof.
  unfold Analytics.clientIp, header.
  destruct (assoc _ (headers req)); simpl; [reflexivity|].
  destruct (remoteAddress req) as [[|c r]|]; reflexivity.
Qed.

Lemma text_or_null_string (v : value) : text_or_null (Analytics.string_or_null v) = true.
Proof. destruct v; reflexivity. Qed.

Lemma shaped_chat_event (req : request) (name : string) (data : list (string * value)) :
  is_empty name = false -> (length name <= 64)%nat ->
  shaped (Analytics.chat_event req name (VObj data)) = true.
Proof.
  intros Hn Hl. unfold shaped, Analytics.chat_event. cbn [session_id user_agent ip page
    step section_id event_name payload].
  rewrite !andb_true_iff. repeat split;
    try apply text_or_null_header; try apply text_or_null_agent; try apply text_or_null_ip.
  unfold named. rewrite Hn. simpl. now apply Nat.leb_le.
Qed.

Lemma shaped_track_row (req : request) (name : string) :
  is_empty name = false -> shaped (track_row req name) = true.
Proof.
  intros Hn. unfold shaped, track_row. cbn [session_id user_agent ip page
    step section_id event_name payload].
  rewrite !andb_true_iff. repeat split.
  - apply text_or_null_string.
  - apply text_or_null_agent.
  - apply text_or_null_ip.
  - apply text_or_null_string.
  - destruct (Number_isFinite _) eqn:E; [|reflexivity].
    destruct (prop (or_else (body req) (VObj [])) "step"); simpl in *; congruence.
  - apply text_or_null_string.
  - unfold named. rewrite slice_nonempty by exact Hn. cbn [negb andb].
    apply Nat.leb_le, slice_length.
  - rewrite kept_payload.
    destruct (prop (or_else (body req) (VObj [])) "payload"); reflexivity.
Qed.

(** Normalizing for the INSERT keeps the shape. *)
Lemma shaped_insert_params (r : row) : shaped r = true -> shaped (insert_params r) = true.
Proof.
  unfold shaped, insert_params. cbn [session_id user_agent ip page
    step section_id event_name payload].
  intros H. repeat (apply andb_true_iff in H; destruct H as [H ?]).
  assert (T : forall v, text_or_null v = true -> text_or_null (or_else v VNull) = true).
  { intros v Hv. unfold or_else. now destruct (truthy v). }
  assert (P : forall v, structure_or_null v = true -> structure_or_null (or_else v VNull) = true).
  { intros v Hv. unfold or_else. now destruct (truthy v). }
  assert (F : forall v, finite_or_null v = true
                        -> finite_or_null (if Number_isFinite v then v else VNull) = true).
  { intros v Hv. now destruct (Number_isFinite v). }
  rewrite !andb_true_iff. repeat split;
    first [ apply T; assumption | apply F; assumption | apply P; assumption | assumption ].
Qed.

(** X11. Whatever the request and the route, every row the application
    records, into the table or into the log, has one shape: its name is a
    non-empty string of at most 64 code units, every text field is a
    string or null, [step] is a finite number or null, and the payload is
    an object, an array or null. (A finite [step] need not be an integer:
    the handlers pass 1.5 on to the INTEGER column as it is.) *)
Theorem recorded_rows_shaped (env : environment) (w : world) (rt : Analytics.route)
    (req : request) (r : row) :
  In r (recorded (snd (Analytics.app env w rt req []))) ->
  shaped r = true.
Proof.
  assert (Hrec : forall msg r0 resp t,
            recorded t = [] -> shaped r0 = true ->
            In r (recorded (snd (record_then env w msg r0 resp t))) -> shaped r = true).
  { intros msg r0 resp t Ht Hs. rewrite record_then_recorded, Ht. simpl.
    destruct (Analytics.pool env); [destruct (query_resolves w)|]; simpl.
    - intros [<-|[]]. now apply shaped_insert_params.
    - intros [].
    - now intros [<-|[]]. }
  unfold Analytics.app.
  destruct (Analytics.origin (header req "origin")); [|intros []].
  destruct rt; try (intros []).
  - rewrite analytics_track_run.
    destruct (prop (or_else (body req) (VObj [])) "event"); try (intros []).
    destruct (is_empty s) eqn:Hn; [intros []|].
    destruct (sampled_out env w); [intros []|].
    apply Hrec; [reflexivity | now apply shaped_track_row].
  - rewrite analytics_chat_run.
    destruct (negb (truthy (env_value (OPENAI_API_KEY env)))); [intros []|].
    destruct (prepare (body req)) as [p|]; [|intros []]. cbv zeta.
    destruct (upstream w) as [|status text]; [intros []|].
    destruct (negb (ok status)).
    + apply Hrec; [reflexivity|]. apply shaped_chat_event; [reflexivity | simpl; lia].
    + destruct (JSON_parse text) as [data|]; [|intros []].
      apply Hrec; [reflexivity|]. apply shaped_chat_event; [reflexivity | simpl; lia].
Qed.

Lemma recorded_rows_shaped_witness :
  shaped {| session_id := VNull; user_agent := VStr "curl/8"; ip := VStr "127.0.0.1";
            page := VNull; step := VNum 1.5%float; section_id := VNull;
            event_name := VStr "click"; payload := VNull |} = true.
Proof.
  apply (recorded_rows_shaped persisted (answers 200 "" true) Analytics.POST_track
           track_half_step).
  left. reflexivity.
Defined.

(** ** The content-logging toggle *)



(** ** The sanitizer, once more *)

Lemma is_turn_as_turn (m : value) : is_turn m = true -> is_turn (as_turn m) = true.
Proof.
  intros H. destruct (is_turn_object m H) as (props & r & c & -> & Hr & Hc).
  unfold as_turn, prop. now rewrite Hr, Hc.
Qed.

Lemma as_turn_idem (m : value) : is_turn m = true -> as_turn (as_turn m) = as_turn m.
Proof.
  intros H. destruct (is_turn_object m H) as (props & r & c & -> & Hr & Hc).
  unfold as_turn, prop. now rewrite Hr, Hc.
Qed.

Lemma sanitized_idem (messages : value) :
  sanitized (VArr (sanitized messages)) = sanitized messages.
Proof.
  unfold sanitized. cbn [elements].
  induction (elements messages) as [|m l IH]; [reflexivity|].
  cbn [filter]. destruct (is_turn m) eqn:E; [|exact IH].
  cbn [map filter]. rewrite (is_turn_as_turn m E). cbn [map].
  rewrite (as_turn_idem m E). now f_equal.
Qed.

Lemma filter_length {A} (p : A -> bool) (l : list A) :
  (length (filter p l) <= length l)%nat.
Proof. induction l as [|x l IH]; simpl; [lia|]. destruct (p x); simpl; lia. Qed.

(** X13. The sanitizer is idempotent and never lengthens: run on its own
    output it returns that output unchanged, and it never returns more
    turns than [messages] has elements. *)
Theorem sanitizer_idempotent (messages : value) (t : trace) :
  (turns <- Analytics.clean messages ;; Analytics.clean (VArr turns)) t
  = Analytics.clean messages t
  /\ (turns <- Server.clean messages ;; Server.clean (VArr turns)) t
     = Server.clean messages t
  /\ (forall turns, Analytics.clean messages t = (Return turns, t) ->
        (length turns <= length (elements messages))%nat).
Proof.
  assert (H : (turns <- Analytics.clean messages ;; Analytics.clean (VArr turns)) t
              = Analytics.clean messages t).
  { rewrite (bind_return _ _ _ _ _ (clean_run messages t)), !clean_run.
    now rewrite sanitized_idem. }
  split; [exact H|]. split; [exact H|].
  intros turns E. rewrite clean_run in E. injection E as <-.
  unfold sanitized. rewrite length_map. apply filter_length.
Qed.

(** ** The system turn, once more *)

Lemma with_system_has_system (system : value) (turns out : list value) :
  with_system system turns = Some out ->
  truthy system = true -> existsb (role_is "system") out = true.
Proof.
  unfold with_system, needs_system. intros E H. rewrite H in E. simpl andb in E.
  destruct (existsb (role_is "system") turns) eqn:Ex; simpl in E.
  - now injection E as <-.
  - destruct (to_string system); [|discriminate]. now injection E as <-.
Qed.

Lemma with_system_idem (system : value) (turns out : list value) :
  with_system system turns = Some out -> with_system system out = Some out.
Proof.
  intros E. unfold with_system at 1. unfold needs_system.
  destruct (truthy system) eqn:H; [|reflexivity].
  now rewrite (with_system_has_system system turns out E H).
Qed.

Lemma with_system_length (system : value) (turns out : list value) :
  with_system system turns = Some out -> (length out <= S (length turns))%nat.
Proof.
  unfold with_system. destruct (needs_system system turns).
  - destruct (to_string system); [|discriminate]. intros E. injection E as <-. simpl. lia.
  - intros E. injection E as <-. lia.
Qed.

(** X14. The sanitizer followed by the conditional unshift either returns
    a sequence or throws the TypeError of [String(system)], and it returns
    whenever that conversion does. When it returns with a truthy [system],
    the sequence holds a turn of role [system] (the client's own first,
    else the one put in front); the unshift adds at most one turn; and
    applied to its own result it adds nothing. *)
Theorem system_turn_present (body : value) (t : trace) :
  let system := field body "system" (VStr "") in
  let messages := field body "messages" (VArr []) in
  let run := (turns <- Analytics.clean messages ;; Analytics.unshift_system system turns) t in
  ((exists out,
      run = (Return out, t)
      /\ (truthy system = true -> existsb (role_is "system") out = true)
      /\ (length out <= S (length (elements messages)))%nat
      /\ Analytics.unshift_system system out t = (Return out, t)
      /\ Server.unshift_system system out t = (Return out, t))
   \/ (run = (Throw TypeError, t)
       /\ to_string system = None
       /\ truthy system = true
       /\ existsb (role_is "system") (sanitized messages) = false))
  /\ (to_string system <> None -> exists out, run = (Return out, t)).
Proof.
  cbv zeta. rewrite clean_unshift_run.
  destruct (with_system (field body "system" (VStr "")) (sanitized (field body "messages" (VArr []))))
    as [out|] eqn:E.
  - split; [|intros _; now exists out].
    left. exists out. split; [reflexivity|].
    split; [now apply (with_system_has_system _ _ _ E)|].
    split.
    { pose proof (with_system_length _ _ _ E) as Hl. unfold sanitized in Hl.
      rewrite length_map in Hl.
      pose proof (filter_length is_turn (elements (field body "messages" (VArr [])))). lia. }
    assert (H : Analytics.unshift_system (field body "system" (VStr "")) out t = (Return out, t)).
    { rewrite unshift_run by (apply (with_system_typed _ _ _ (sanitized_typed _) E)).
      now rewrite (with_system_idem _ _ _ E). }
    split; exact H.
  - unfold with_system, needs_system in E.
    destruct (truthy (field body "system" (VStr ""))); simpl in E; [|discriminate].
    destruct (existsb _ _); simpl in E; [discriminate|].
    destruct (to_string (field body "system" (VStr ""))); [discriminate|].
    split; [now right | intros H; now destruct H].
Qed.

(** ** The upstream call *)

(** X15. With a non-empty credential and conversions that return, the
    first thing /api/chat does, in both servers, is one POST to
    [base/chat/completions] carrying [Bearer key] and the serialized body,
    where [base] is OPENAI_API_BASE when that is set and not empty, and
    [https://api.openai.com/v1] otherwise. When a conversion throws, all
    either server does is log the TypeError. *)
Theorem upstream_call (env : environment) (w : world) (req : request) (t : trace)
    (c : code_unit) (key : string) :
  OPENAI_API_KEY env = Some (c :: key) ->
  let base := match OPENAI_API_BASE env with
              | Some (b :: r) => b :: r
              | _ => "https://api.openai.com/v1"
              end in
  match prepare (body req) with
  | Some p =>
      exists rest rest',
        snd (Analytics.api_chat env w req t)
        = t ++ Fetch (base ++ "/chat/completions") ("Bearer " ++ c :: key)
                     (JSON_stringify (upstream_object p)) :: rest
        /\ snd (Server.api_chat env w req t)
           = t ++ Fetch (base ++ "/chat/completions") ("Bearer " ++ c :: key)
                        (JSON_stringify (upstream_object p)) :: rest'
  | None =>
      snd (Analytics.api_chat env w req t) = t ++ [LogError "Proxy error" TypeError]
      /\ snd (Server.api_chat env w req t) = t ++ [ConsoleError "Proxy error:" TypeError]
  end.
Proof.
  intros Hkey. cbv zeta.
  assert (Ht : truthy (env_value (OPENAI_API_KEY env)) = true) by now rewrite Hkey.
  rewrite analytics_chat_run, server_chat_run, Ht. simpl negb. cbv iota.
  destruct (prepare (body req)) as [p|]; [|split; reflexivity].
  cbv zeta.
  assert (Hrq : chat_request env p
                = Fetch (match OPENAI_API_BASE env with
                         | Some (b :: r) => b :: r
                         | _ => "https://api.openai.com/v1"
                         end ++ "/chat/completions") ("Bearer " ++ c :: key)
                        (JSON_stringify (upstream_object p))).
  { unfold chat_request, api_base, api_key. now rewrite Hkey. }
  rewrite <- Hrq.
  assert (Hrec : forall r resp,
            exists rest,
              snd (record_then env w "Proxy error" r resp (t ++ [chat_request env p]))
              = t ++ chat_request env p :: rest).
  { intros r resp. destruct (record_then_delta env w "Proxy error" r resp
                               (t ++ [chat_request env p])) as (e & -> & _).
    exists [e]. now rewrite <- app_assoc. }
  destruct (upstream w) as [|status text].
  - do 2 eexists. simpl snd. rewrite <- !app_assoc. split; reflexivity.
  - destruct (negb (ok status)).
    + destruct (Hrec (Analytics.chat_event req "coach_chat_error" (error_payload status text))
                  (Json status (error_body text))) as (rest & ->).
      exists rest, []. split; reflexivity.
    + destruct (JSON_parse text) as [data|].
      * destruct (Hrec (Analytics.chat_event req "coach_chat" (chat_payload env p data))
                    (Json 200 (VObj [("reply", reply_of data)]))) as (rest & ->).
        exists rest, []. split; reflexivity.
      * do 2 eexists. simpl snd. rewrite <- !app_assoc. split; reflexivity.
Qed.

Lemma upstream_call_witness :
  exists rest rest',
    snd (Analytics.api_chat log_only (answers 200 hi_there true) chat_abc [])
    = [] ++ Fetch ("https://api.openai.com/v1" ++ "/chat/completions")
                  ("Bearer " ++ "sk-test") (JSON_stringify (upstream_object abc_input)) :: rest
    /\ snd (Server.api_chat log_only (answers 200 hi_there true) chat_abc [])
       = [] ++ Fetch ("https://api.openai.com/v1" ++ "/chat/completions")
                     ("Bearer " ++ "sk-test") (JSON_stringify (upstream_object abc_input)) :: rest'.
Proof.
  apply (upstream_call log_only (answers 200 hi_there true) chat_abc [] "s"%u "k-test").
  reflexivity.
Defined.

(** ** lastUser *)

Lemma find_app_none {A} (p : A -> bool) (l l' : list A) :
  existsb p l = false -> find p (l ++ l') = find p l'.
Proof.
  induction l as [|x l IH]; [reflexivity|].
  simpl. intros H. apply orb_false_iff in H. destruct H as [-> H]. now apply IH.
Qed.

Lemma existsb_rev {A} (p : A -> bool) (l : list A) : existsb p (rev l) = existsb p l.
Proof.
  induction l as [|x l IH]; [reflexivity|].
  simpl. rewrite existsb_app, IH. simpl. rewrite orb_false_r. apply orb_comm.
Qed.

(** X16. [lastUser] is the content of the last turn of role [user]: for
    sanitized turns [before ++ {role: "user", content} :: after] where no
    turn of [after] has role [user], it is [content], whatever [before]
    holds; it is the empty string when no turn has role [user]. *)
Theorem lastUser_is_last (before after : list value) (content : string) (t : trace) :
  Forall well_typed before ->
  Forall well_typed after ->
  existsb (role_is "user") after = false ->
  Analytics.lastUser
    (before ++ VObj [("role", VStr "user"); ("content", VStr content)] :: after) t
  = (Return (VStr content), t)
  /\ (existsb (role_is "user") before = false ->
      Analytics.lastUser (before ++ after) t = (Return (VStr ""), t)).
Proof.
  intros Hb Ha Hno. split.
  - rewrite lastUser_run.
    + unfold last_user. rewrite rev_app_distr. simpl rev. rewrite <- app_assoc.
      rewrite find_app_none by now rewrite existsb_rev. reflexivity.
    + apply Forall_app. split; [exact Hb|]. constructor; [|exact Ha].
      now exists "user", content.
  - intros Hnb. rewrite lastUser_run by (apply Forall_app; now split).
    unfold last_user. rewrite rev_app_distr.
    rewrite find_app_none by now rewrite existsb_rev.
    destruct (find (role_is "user") (rev before)) as [m|] eqn:E; [|reflexivity].
    apply find_some in E. destruct E as [Hin Hm].
    assert (existsb (role_is "user") (rev before) = true).
    { apply existsb_exists. now exists m. }
    rewrite existsb_rev in H. congruence.
Qed.

Lemma lastUser_is_last_witness :
  Analytics.lastUser
    ([user_turn "first"]
       ++ VObj [("role", VStr "user"); ("content", VStr "second")]
       :: [VObj [("role", VStr "assistant"); ("content", VStr "third")]]) []
  = (Return (VStr "second"), [])
  /\ (existsb (role_is "user") [user_turn "first"] = false ->
      Analytics.lastUser
        ([user_turn "first"] ++ [VObj [("role", VStr "assistant"); ("content", VStr "third")]]) []
      = (Return (VStr ""), [])).
Proof.
  apply (lastUser_is_last [user_turn "first"]
           [VObj [("role", VStr "assistant"); ("content", VStr "third")]] "second" []).
  - constructor; [|constructor]. now exists "user", "first".
  - constructor; [|constructor]. now exists "assistant", "third".
  - reflexivity.
Defined.

(** ** The event name, at its bound *)

Lemma slice_short (n : nat) (s : string) : (length s <= n)%nat -> slice n s = s.
Proof. unfold slice. apply firstn_all2. Qed.

Lemma slice_long (n : nat) (s : string) : (n <= length s)%nat -> length (slice n s) = n.
Proof. unfold slice. apply firstn_length_le. Qed.

Lemma slice_prefix (n : nat) (s : string) : starts_with (slice n s) s = true.
Proof.
  unfold slice. revert s. induction n as [|n IH]; intros [|c r]; simpl; try reflexivity.
  now rewrite Z.eqb_refl, IH.
Qed.

(** X17. A valid event that is not sampled out, with the record operation
    succeeding, leaves exactly one row, whose name is [event] itself when
    [event] has at most 64 characters, and otherwise its prefix of exactly
    64 characters. *)
Theorem track_name_bound (env : environment) (w : world) (req : request) (t : trace)
    (name : string) :
  prop (or_else (body req) (VObj [])) "event" = VStr name ->
  is_empty name = false ->
  sampled_out env w = false ->
  record_succeeds env w = true ->
  exists r stored,
    recorded (snd (Analytics.api_track env w req t)) = recorded t ++ [r]
    /\ event_name r = VStr stored
    /\ starts_with stored name = true
    /\ ((length name <= 64)%nat -> stored = name)
    /\ ((64 <= length name)%nat -> length stored = 64%nat).
Proof.
  intros Hev Hne Hs Hrec.
  rewrite analytics_track_run, Hev, Hne, Hs, record_then_recorded.
  unfold record_succeeds in Hrec.
  assert (Hname : forall r, event_name r = VStr (slice 64 name) ->
            exists stored,
              event_name r = VStr stored
              /\ starts_with stored name = true
              /\ ((length name <= 64)%nat -> stored = name)
              /\ ((64 <= length name)%nat -> length stored = 64%nat)).
  { intros r ->. exists (slice 64 name). split; [reflexivity|].
    split; [apply slice_prefix|]. split; [apply slice_short | apply slice_long]. }
  destruct (Analytics.pool env).
  - simpl in Hrec. rewrite Hrec.
    destruct (Hname (insert_params (track_row req name)) eq_refl) as (stored & H).
    now exists (insert_params (track_row req name)), stored.
  - destruct (Hname (track_row req name) eq_refl) as (stored & H).
    now exists (track_row req name), stored.
Qed.

Lemma track_name_bound_witness :
  exists r stored,
    recorded (snd (Analytics.api_track log_only (answers 200 "" true) track_click []))
    = recorded [] ++ [r]
    /\ event_name r = VStr stored
    /\ starts_with stored "click" = true
    /\ ((length "click" <= 64)%nat -> stored = "click")
    /\ ((64 <= length "click")%nat -> length stored = 64%nat).
Proof.
  apply (track_name_bound log_only (answers 200 "" true) track_click [] "click"); reflexivity.
Defined.
